(** * movie-review: the sentiment-annotated content cache of [app.py]

    A shallow embedding of the request handlers of [app.py] (a Flask
    application) and of the library calls they rely on, followed by the
    properties of the specification that were checked against it.

    Conventions.
    - Python [int] is [Z]. Python [float] is IEEE 754 binary64, modelled
      by the exact rational value of the float ([pyfloat]); every float
      operation rounds the exact result to the nearest binary64 value,
      ties to even ([Binary64.RN]).
    - A handler is a function of the state of the application (the tables
      and the cache) that returns or raises, and gives the state reached
      ([handler]).
    - The page that a view renders is modelled by the template context it
      is rendered from; flashed messages are left out.
    - The clock is read in whole seconds.
    - Flask-Caching ([cached], [delete_memoized]) and cachelib
      ([SimpleCache]) are modelled as of their 2.x and 0.9 releases, and
      Werkzeug's [url_for] for the one rule that the cache keys need.
    - Flask-Login answers an anonymous request of a protected view with
      a redirect to the login page that carries the URL of the request;
      the model names this answer ([LoginRedirect]) and does not spell
      the URL.
    - The catalog (OMDb), the fitted pipeline and bcrypt are parameters:
      the answer of the catalog at the time of a request, the two methods
      of the pipeline, the hash function. *)

From Stdlib Require Import ZArith QArith Qpower Qround Qabs Lqa Lia Floats List Ascii.
From Stdlib Require Import Qminmax.
From stdpp Require Import gmap strings pretty sorting.

Local Open Scope Z_scope.

(* ================================================================= *)
(** ** IEEE 754 binary64, on exact rationals *)

Module Binary64.

(** 2^e for any integer exponent. *)
Definition pow2 (e : Z) : Q := Qpower 2 e.

(** The integer nearest to [q]; a tie goes to the even neighbour. *)
Definition round_half_even (q : Q) : Z :=
  let f := Qfloor q in
  match Qcompare (q - inject_Z f) (1 # 2) with
  | Lt => f
  | Gt => f + 1
  | Eq => if Z.even f then f else f + 1
  end.

(** floor(log2 x), for x > 0. *)
Definition ilog2 (x : Q) : Z :=
  if Qle_bool 1 x then Z.log2 (Qfloor x)
  else - Z.log2_up (Qceiling (/ x)).

(** The exponent of the unit in the last place of [x]: 53 significant
    bits, and the subnormal range below 2^-1022. *)
Definition ulp_exp (x : Q) : Z := Z.max (ilog2 x - 52) (-1074).

Definition round_pos (x : Q) : Q :=
  let e := ulp_exp x in
  Qred (inject_Z (round_half_even (x / pow2 e)) * pow2 e).

(** Round to nearest, ties to even, with an unbounded exponent above:
    the caller tests the result against [overflow_threshold]. *)
Definition RN (x : Q) : Q :=
  match Qnum x with
  | Z0 => 0%Q
  | Zpos _ => round_pos x
  | Zneg _ => Qred (- round_pos (- x))
  end.

Definition overflow_threshold : Q := pow2 1024.

(** Reading a hardware float back as a rational, to compare [RN] with
    the kernel's binary64 operations. *)
Definition SF2Q (f : SpecFloat.spec_float) : option Q :=
  match f with
  | SpecFloat.S754_zero _ => Some 0%Q
  | SpecFloat.S754_finite s m e =>
      Some (Qred ((if s then -1 else 1) * inject_Z (Zpos m) * pow2 e))
  | _ => None
  end.

Definition hw (f : float) : option Q := SF2Q (Prim2SF f).

Definition hw_of_Z (z : Z) : float := PrimFloat.of_uint63 (Uint63.of_Z z).

End Binary64.

(* ================================================================= *)
(** ** The fragment of Python that the handlers use *)

Module Py.

Inductive exn : Type :=
| ZeroDivisionError
| OverflowError
| ValueError
| BadRequestKeyError
| IntegrityError
| NotFound
| BuildError
| IndexError
| FileNotFoundError
| CacheBackendError.

Inductive outcome (A : Type) : Type :=
| Ret (a : A)
| Raise (e : exn).
Arguments Ret {A} a.
Arguments Raise {A} e.

Definition bind {A B} (m : outcome A) (k : A -> outcome B) : outcome B :=
  match m with
  | Ret a => k a
  | Raise e => Raise e
  end.

(** A Python float: a finite binary64 value, an infinity or a NaN. *)
Inductive pyfloat : Type :=
| Fin (q : Q)
| Inf (neg : bool)
| NaN.

Definition is_neg (q : Q) : bool :=
  match Qnum q with Zneg _ => true | _ => false end.

(** Rounding an exact result into a float; overflow gives an infinity. *)
Definition fl (x : Q) : pyfloat :=
  let r := Binary64.RN x in
  if Qle_bool Binary64.overflow_threshold (Qabs r) then Inf (is_neg r)
  else Fin r.

(** [a / b] on two ints (CPython's [long_true_divide]): the correctly
    rounded quotient, or an exception. *)
Definition truediv (a b : Z) : outcome pyfloat :=
  if b =? 0 then Raise ZeroDivisionError
  else match fl (inject_Z a / inject_Z b) with
       | Fin q => Ret (Fin q)
       | _ => Raise OverflowError
       end.

Definition float_mul (x y : pyfloat) : pyfloat :=
  match x, y with
  | NaN, _ | _, NaN => NaN
  | Fin a, Fin b => fl (a * b)
  | Inf s, Inf t => Inf (xorb s t)
  | Inf s, Fin b | Fin b, Inf s =>
      match Qnum b with
      | Z0 => NaN
      | Zpos _ => Inf s
      | Zneg _ => Inf (negb s)
      end
  end.

Definition float_add (x y : pyfloat) : pyfloat :=
  match x, y with
  | NaN, _ | _, NaN => NaN
  | Fin a, Fin b => fl (a + b)
  | Inf s, Inf t => if Bool.eqb s t then Inf s else NaN
  | Inf s, Fin _ | Fin _, Inf s => Inf s
  end.

(** [math.ceil] of a float. *)
Definition math_ceil (x : pyfloat) : outcome Z :=
  match x with
  | Fin q => Ret (Qceiling q)
  | Inf _ => Raise OverflowError
  | NaN => Raise ValueError
  end.

(** A number held in a Python variable: an int or a float. *)
Inductive pynum : Type :=
| PInt (z : Z)
| PFloat (f : pyfloat).

(** The exact value of a finite number. *)
Definition num_value (n : pynum) : option Q :=
  match n with
  | PInt z => Some (inject_Z z)
  | PFloat (Fin q) => Some q
  | PFloat _ => None
  end.

End Py.

Import Py.

#[global] Instance outcome_ret : MRet outcome := @Ret.
#[global] Instance outcome_bind : MBind outcome := fun A B k m => bind m k.

(* ================================================================= *)
(** ** Database models *)

Record User : Type := mkUser {
  user_id_of : Z;
  username : string;
  email : string;
  password : string;
  is_admin : bool
}.

Record Review : Type := mkReview {
  review_id : Z;
  content : string;
  sentiment : string;
  confidence : pyfloat;
  user_id : Z;
  imdb_id : option string
}.

(* ================================================================= *)
(** ** [profile]: the aggregation of a user's reviews *)

Record Stats : Type := mkStats {
  total : Z;
  positive : Z;
  negative : Z;
  positive_percent : pynum;
  negative_percent : pynum
}.

(** [sum(1 for r in reviews if r.sentiment == 'Positive')] *)
Fixpoint positive_count (reviews : list Review) : Z :=
  match reviews with
  | [] => 0
  | r :: rest =>
      (if String.eqb (sentiment r) "Positive" then 1 else 0) + positive_count rest
  end.

(** Lines 127-144 of [profile]. *)
Definition profile_stats (reviews : list Review) : outcome Stats :=
  let total_reviews := Z.of_nat (length reviews) in
  let positive_count := positive_count reviews in
  let negative_count := total_reviews - positive_count in
  if 0 <? total_reviews then
    p ← truediv positive_count total_reviews;
    n ← truediv negative_count total_reviews;
    Ret (mkStats total_reviews positive_count negative_count
           (PFloat (float_mul p (Fin 100))) (PFloat (float_mul n (Fin 100))))
  else
    Ret (mkStats total_reviews positive_count negative_count (PInt 0) (PInt 0)).

(* ================================================================= *)
(** ** [movie]: the page count of a search *)

(** [math.ceil(total_results / 10)] *)
Definition total_pages (total_results : Z) : outcome Z :=
  f ← truediv total_results 10;
  math_ceil f.

(* ================================================================= *)
(** ** Handlers: state and exceptions *)

(** A computation over a state [S] that returns or raises; the state
    reached is kept in both cases (a committed row stays committed when a
    later statement raises). *)
Definition handler (S A : Type) : Type := S -> outcome A * S.

Definition hret {S A} (a : A) : handler S A := fun s => (Ret a, s).

Definition hraise {S A} (e : exn) : handler S A := fun s => (Raise e, s).

Definition hbind {S A B} (m : handler S A) (k : A -> handler S B) : handler S B :=
  fun s =>
    match m s with
    | (Ret a, s') => k a s'
    | (Raise e, s') => (Raise e, s')
    end.

Definition hlift {S A} (o : outcome A) : handler S A := fun s => (o, s).

Declare Scope handler_scope.
Delimit Scope handler_scope with handler.
Notation "'do' x <- m ; k" := (hbind m (fun x => k))
  (at level 10, x name, m at level 100, k at level 200,
   format "'[v' 'do'  x  <-  m ; '/' k ']'") : handler_scope.
Notation "'run' m ; k" := (hbind m (fun _ => k))
  (at level 10, m at level 100, k at level 200,
   format "'[v' 'run'  m ; '/' k ']'") : handler_scope.
Local Open Scope handler_scope.

(* ================================================================= *)
(** ** Werkzeug: building the URL of a view *)

Module Werkzeug.

(** A value passed to [url_for]: a string, or a function object (whose
    [str] shows its name and its address). *)
Inductive pyarg : Type :=
| ArgStr (s : string)
| ArgFunction (name : string) (address : string).

Definition py_str (a : pyarg) : string :=
  match a with
  | ArgStr s => s
  | ArgFunction name address => "<function " +:+ name +:+ " at 0x" +:+ address +:+ ">"
  end.

Definition hex_digit (n : N) : ascii :=
  match String.get (N.to_nat n) "0123456789ABCDEF" with
  | Some c => c
  | None => "0"%char
  end.

Definition percent_encode (c : ascii) : string :=
  String "%" (String (hex_digit (N_of_ascii c / 16))
             (String (hex_digit (N_of_ascii c mod 16)) EmptyString)).

Definition in_range (lo hi c : ascii) : bool :=
  (N_of_ascii lo <=? N_of_ascii c)%N && (N_of_ascii c <=? N_of_ascii hi)%N.

Fixpoint mem_char (c : ascii) (s : string) : bool :=
  match s with
  | EmptyString => false
  | String d rest => Ascii.eqb c d || mem_char c rest
  end.

(** The bytes [url_quote] leaves alone: unreserved characters and the
    characters safe in a path segment. *)
Definition url_safe (c : ascii) : bool :=
  in_range "a" "z" c || in_range "A" "Z" c || in_range "0" "9" c
  || mem_char c "-._~!$&'()*+,/:;=@".

Fixpoint url_quote (s : string) : string :=
  match s with
  | EmptyString => EmptyString
  | String c rest =>
      (if url_safe c then String c EmptyString else percent_encode c)
      +:+ url_quote rest
  end.

(** [url_for('movie_details', imdb_id=v)] for the rule
    [/app/movie/<string:imdb_id>]; a missing or [None] value cannot be
    built. *)
Definition url_for_movie_details (imdb_id : option pyarg) : outcome string :=
  match imdb_id with
  | Some v => Ret ("/app/movie/" +:+ url_quote (py_str v))
  | None => Raise BuildError
  end.

End Werkzeug.

Import Werkzeug.

(* ================================================================= *)
(** ** What a view returns

    [LoginRedirect] is the answer of [login_manager.unauthorized()] when
    [login_view] is set, as it is at line 35: a redirect to the login
    page whose query parameter [next] carries the URL of the request,
    [/login?next=%2Fapp%2Fprofile] for a request of [/app/profile]. *)

Inductive response : Type :=
| MovieDetailsPage (movie_data : option (gmap string string))
                   (reviews_with_users : list (Review * User))
| ProfilePage (reviews : list Review) (stats : Stats)
| RegisterPage
| Redirect (location : string)
| LoginRedirect
| JsonResponse (status prediction_text : string) (prediction : Z) (confidence : string).

(* ================================================================= *)
(** ** The cache *)

(** The operations of a cachelib backend that Flask-Caching calls; each of
    them may raise (a remote backend that is down). *)
Record CacheBackend : Type := mkCacheBackend {
  store : Type;
  backend_get : Z -> string -> handler store (option response);
  backend_set : Z -> string -> response -> Z -> handler store unit;
  backend_delete : string -> handler store unit
}.

(** [CACHE_TYPE = 'simple']: cachelib's [SimpleCache], a dict in the
    process, from a key to [(expires, value)]. *)
Module SimpleCache.
Section Policy.

(** What [_prune] removes once the dict holds more than [threshold]
    entries (expired entries first, then the ones that expire soonest);
    the properties below hold for every such policy. *)
Variable evict : Z -> gmap string (Z * response) -> gmap string (Z * response).

Definition threshold : nat := 500.

Definition prune (now : Z) (c : gmap string (Z * response)) : gmap string (Z * response) :=
  if (threshold <? size c)%nat then evict now c else c.

(** [expires == 0 or expires > time()] *)
Definition get (now : Z) (key : string) (c : gmap string (Z * response)) : option response :=
  match c !! key with
  | Some (expires, value) =>
      if (expires =? 0) || (now <? expires) then Some value else None
  | None => None
  end.

Definition normalize_timeout (now timeout : Z) : Z :=
  if 0 <? timeout then now + timeout else timeout.

Definition set (now : Z) (key : string) (value : response) (timeout : Z)
    (c : gmap string (Z * response)) : gmap string (Z * response) :=
  let expires := normalize_timeout now timeout in
  <[key := (expires, value)]> (prune now c).

(** [self._cache.pop(key, None)] *)
Definition delete (key : string) (c : gmap string (Z * response)) : gmap string (Z * response) :=
  base.delete key c.

Definition backend : CacheBackend :=
  {| store := gmap string (Z * response);
     backend_get now key := fun c => (Ret (get now key c), c);
     backend_set now key value timeout := fun c => (Ret tt, set now key value timeout c);
     backend_delete key := fun c => (Ret tt, delete key c) |}.

End Policy.
End SimpleCache.

(** A backend whose server cannot be reached: every call raises. *)
Definition DownCache : CacheBackend :=
  {| store := unit;
     backend_get _ _ := hraise CacheBackendError;
     backend_set _ _ _ _ := hraise CacheBackendError;
     backend_delete _ := hraise CacheBackendError |}.

(* ================================================================= *)
(** ** The application state: the database and the cache *)

Record AppState (B : CacheBackend) : Type := mkAppState {
  users : list User;
  reviews : list Review;
  cache : store B
}.
Arguments mkAppState {B} _ _ _.
Arguments users {B} _.
Arguments reviews {B} _.
Arguments cache {B} _.

Definition set_users {B} (st : AppState B) (us : list User) : AppState B :=
  mkAppState us (reviews st) (cache st).

Definition set_reviews {B} (st : AppState B) (rs : list Review) : AppState B :=
  mkAppState (users st) rs (cache st).

(** Running a cache operation on the cache of the application. *)
Definition on_cache {B A} (m : handler (store B) A) : handler (AppState B) A :=
  fun st =>
    let (o, c) := m (cache st) in
    (o, mkAppState (users st) (reviews st) c).

(** The id given to a new row of an [INTEGER PRIMARY KEY] column. *)
Definition next_id (ids : list Z) : Z := 1 + foldr Z.max 0 ids.

(** [order_by(<key>.desc())] *)
Fixpoint insert_desc {A} (key : A -> Z) (x : A) (l : list A) : list A :=
  match l with
  | [] => [x]
  | y :: rest =>
      if key y <? key x then x :: l else y :: insert_desc key x rest
  end.

Definition order_by_desc {A} (key : A -> Z) (l : list A) : list A :=
  foldr (insert_desc key) [] l.

Definition find_user (us : list User) (id : Z) : option User :=
  List.find (fun u => user_id_of u =? id) us.

(** [query(Review, User).join(User)]: a review without its author's row
    is dropped. *)
Definition join_user (us : list User) (rs : list Review) : list (Review * User) :=
  omap (fun r => (fun u => (r, u)) <$> find_user us (user_id r)) rs.

Definition has_imdb_id (x : string) (r : Review) : bool :=
  match imdb_id r with
  | Some y => String.eqb y x
  | None => false
  end.

(** [query(Review, User).join(User).filter(Review.imdb_id == imdb_id)
      .order_by(Review.id.desc()).all()] *)
Definition reviews_of_movie {B} (st : AppState B) (x : string) : list (Review * User) :=
  order_by_desc (fun ru => review_id (fst ru))
    (join_user (users st) (List.filter (has_imdb_id x) (reviews st))).

(** [Review.query.filter_by(user_id=...).order_by(Review.id.desc()).all()] *)
Definition reviews_of_user {B} (st : AppState B) (uid : Z) : list Review :=
  order_by_desc review_id (List.filter (fun r => user_id r =? uid) (reviews st)).

(** [db.session.add(Review(...)); db.session.commit()] *)
Definition add_review {B} (content sentiment : string) (confidence : pyfloat)
    (uid : Z) (imdb : option string) : handler (AppState B) unit :=
  fun st =>
    let r := mkReview (next_id (review_id <$> reviews st))
               content sentiment confidence uid imdb in
    (Ret tt, set_reviews st (reviews st ++ [r])).

(** [Review.query.get_or_404(review_id)] *)
Definition get_or_404 {B} (id : Z) : handler (AppState B) Review :=
  fun st =>
    match List.find (fun r => review_id r =? id) (reviews st) with
    | Some r => (Ret r, st)
    | None => (Raise NotFound, st)
    end.

(** [db.session.delete(review); db.session.commit()] *)
Definition delete_row {B} (r : Review) : handler (AppState B) unit :=
  fun st =>
    (Ret tt, set_reviews st
               (List.filter (fun r' => negb (review_id r' =? review_id r)) (reviews st))).

(** [db.session.add(User(...)); db.session.commit()], with the NOT NULL
    and UNIQUE constraints of the table. *)
Definition add_user {B} (uname mail : option string) (hashed : string) (admin : bool)
    : handler (AppState B) unit :=
  fun st =>
    match uname, mail with
    | Some n, Some m =>
        if existsb (fun u => String.eqb (username u) n || String.eqb (email u) m) (users st)
        then (Raise IntegrityError, st)
        else (Ret tt, set_users st
                        (users st ++ [mkUser (next_id (user_id_of <$> users st)) n m hashed admin]))
    | _, _ => (Raise IntegrityError, st)
    end.

(** [d.get(key) == value] on a dict of strings. *)
Definition get_is (d : gmap string string) (key value : string) : bool :=
  match d !! key with
  | Some v => String.eqb v value
  | None => false
  end.

(** Truth value of an optional string: [None] and [''] are false. *)
Definition truthy (s : option string) : bool :=
  match s with
  | Some (String _ _) => true
  | _ => false
  end.

(* ================================================================= *)
(** ** Flask-Caching: [cached] and [delete_memoized] *)

Module FlaskCaching.
Section Decorators.

Variable B : CacheBackend.

(** [app.debug] *)
Variable debug : bool.

(** The default key of a cached view: [key_prefix % request.path] with
    [key_prefix = 'view/%s']. *)
Definition view_key (path : string) : string := "view/" +:+ path.

(** [@cache.cached(timeout=...)] around the view [f], for a request of
    path [path] at time [now]. A backend error is raised in debug mode
    and logged otherwise. Whatever [f] returns is stored. *)
Definition cached (timeout now : Z) (path : string)
    (f : handler (AppState B) response) : handler (AppState B) response :=
  fun st =>
    match on_cache (backend_get B now (view_key path)) st with
    | (Raise e, st1) => if debug then (Raise e, st1) else f st1
    | (Ret (Some rv), st1) => (Ret rv, st1)
    | (Ret None, st1) =>
        match f st1 with
        | (Raise e, st2) => (Raise e, st2)
        | (Ret rv, st2) =>
            match on_cache (backend_set B now (view_key path) rv timeout) st2 with
            | (Raise e, st3) => if debug then (Raise e, st3) else (Ret rv, st3)
            | (Ret _, st3) => (Ret rv, st3)
            end
        end
    end.

(** [make_cache_key] of a cached view whose parameters are [params]:
    the positional arguments are paired with the parameter names in
    order ([zip]) and the URL of the view is built from the pairs. The
    view here is [movie_details], of the one parameter [imdb_id]. *)
Definition make_cache_key (params : list string) (args : list pyarg) : outcome string :=
  let kwargs := zip params args in
  url ← url_for_movie_details (snd <$> List.find (fun kv => String.eqb (fst kv) "imdb_id") kwargs);
  Ret (view_key url).

(** [cache.delete_memoized(f, *args)] with one argument or more:
    [cache.delete(f.make_cache_key(f.uncached, *args))]. [uncached] is
    the undecorated function. *)
Definition delete_memoized (params : list string) (uncached : pyarg) (args : list pyarg)
    : handler (AppState B) unit :=
  do key <- hlift (make_cache_key params (uncached :: args));
  on_cache (backend_delete B key).

End Decorators.
End FlaskCaching.

(* ================================================================= *)
(** ** The classifier *)

(** The pipeline unpickled from [sentiment_model.joblib]: for a list of
    texts, a row of class probabilities per text, and a class per text. *)
Record Pipeline : Type := mkPipeline {
  predict_proba : list string -> list (list Q);
  model_predict : list string -> list Z
}.

(** [np.max] of a two-dimensional array: the largest entry. *)
Definition np_max (a : list (list Q)) : outcome Q :=
  match concat a with
  | [] => Raise ValueError
  | x :: xs => Ret (foldl Qmax x xs)
  end.

(** [f'{x:.1f}'] *)
Definition format_1f (x : pyfloat) : string :=
  match x with
  | Fin q =>
      let t := Binary64.round_half_even (Qabs q * 10) in
      (if is_neg q then "-" else "") +:+ pretty (t / 10) +:+ "." +:+ pretty (t mod 10)
  | Inf neg => if neg then "-inf" else "inf"
  | NaN => "nan"
  end.

(* ================================================================= *)
(** ** The views *)

(** The answer of [requests.get(api_url)] followed by [response.json()]. *)
Inductive http_result : Type :=
| JsonBody (d : gmap string string)
| RequestException.

Section Views.

Variable B : CacheBackend.
Variable debug : bool.

(** The model loaded at import time. *)
Variable model : Pipeline.

(** The address shown by [str] of the undecorated [movie_details]. *)
Variable movie_details_address : string.

(** [bcrypt.generate_password_hash(password).decode('utf-8')] on a
    non-empty password. *)
Variable bcrypt_hash : string -> string.

(** [@login_required]: the view runs for an authenticated user; an
    anonymous request is answered by [login_manager.unauthorized()]. *)
Definition login_required (current_user : option User)
    (view : User -> handler (AppState B) response) : handler (AppState B) response :=
  match current_user with
  | Some u => view u
  | None => hret LoginRedirect
  end.

(** [@admin_required] *)
Definition admin_required (current_user : User)
    (view : handler (AppState B) response) : handler (AppState B) response :=
  if is_admin current_user then view else hret (Redirect "/app").

Definition generate_password_hash (password : option string) : outcome string :=
  match password with
  | Some (String c rest) => Ret (bcrypt_hash (String c rest))
  | _ => Raise ValueError
  end.

(** [register], lines 78-93. *)
Definition register (method : string) (current_user : option User)
    (form : gmap string string) : handler (AppState B) response :=
  match current_user with
  | Some _ => hret (Redirect "/app")
  | None =>
      if String.eqb method "POST" then
        let username := form !! "username" in
        let email := form !! "email" in
        let password := form !! "password" in
        let is_admin_user :=
          match email with
          | Some e => String.eqb e "admin@admin.com"
          | None => false
          end in
        do hashed_password <- hlift (generate_password_hash password);
        run add_user username email hashed_password is_admin_user;
        hret (Redirect "/login")
      else hret RegisterPage
  end.

(** [profile], lines 122-146. *)
Definition profile (current_user : option User) : handler (AppState B) response :=
  login_required current_user (fun user =>
    fun st =>
      let reviews := reviews_of_user st (user_id_of user) in
      match profile_stats reviews with
      | Ret stats => (Ret (ProfilePage reviews stats), st)
      | Raise e => (Raise e, st)
      end).

(** The body of [movie_details], lines 186-201: the page rendered from
    the answer of the catalog and from the reviews in the database;
    [omdb] is the answer of the catalog to the lookup of an identifier at
    the time of the request. *)
Definition detail_page (omdb : string -> http_result) (imdb_id : string)
    (st : AppState B) : response :=
  let movie_data :=
    match omdb imdb_id with
    | JsonBody d => if get_is d "Response" "False" then None else Some d
    | RequestException => None
    end in
  let reviews :=
    match movie_data with
    | Some d => if (size d =? 0)%nat then [] else reviews_of_movie st imdb_id
    | None => []
    end in
  MovieDetailsPage movie_data reviews.

Definition movie_details_view (omdb : string -> http_result) (imdb_id : string)
    : handler (AppState B) response :=
  fun st => (Ret (detail_page omdb imdb_id st), st).

(** [movie_details] as routed: [@login_required] around
    [@cache.cached(timeout=86400)] around the body. *)
Definition movie_details (now : Z) (current_user : option User)
    (omdb : string -> http_result) (imdb_id : string) : handler (AppState B) response :=
  login_required current_user (fun _ =>
    FlaskCaching.cached B debug 86400 now ("/app/movie/" +:+ imdb_id)
      (movie_details_view omdb imdb_id)).

(** [cache.delete_memoized(movie_details, imdb_id)] *)
Definition invalidate (imdb_id : string) : handler (AppState B) unit :=
  FlaskCaching.delete_memoized B ["imdb_id"]
    (ArgFunction "movie_details" movie_details_address) [ArgStr imdb_id].

(** Lines 209-213 of [predict]: label, confidence and class of a text. *)
Definition classify (review_text : string) : outcome (string * pyfloat * Z) :=
  let data_to_predict := [review_text] in
  let probabilities := predict_proba model data_to_predict in
  confidence ← np_max probabilities;
  prediction ← match model_predict model data_to_predict with
               | p :: _ => Ret p
               | [] => Raise IndexError
               end;
  let prediction_text := if prediction =? 1 then "Positive" else "Negative" in
  Ret (prediction_text, Fin confidence, prediction).

(** [predict], lines 203-237. *)
Definition predict (current_user : option User) (form : gmap string string)
    : handler (AppState B) response :=
  login_required current_user (fun user =>
    do review_text <- hlift (match form !! "review_text" with
                             | Some t => Ret t
                             | None => Raise BadRequestKeyError
                             end);
    let imdb_id := form !! "imdb_id" in
    do c <- hlift (classify review_text);
    let '(prediction_text, confidence, prediction) := c in
    run add_review review_text prediction_text confidence (user_id_of user) imdb_id;
    run (match imdb_id with
         | Some x => if truthy imdb_id then invalidate x else hret tt
         | None => hret tt
         end);
    if get_is form "is_ajax" "true" then
      hret (JsonResponse "success" prediction_text prediction
              (format_1f (float_mul confidence (Fin 100))))
    else
      do url <- hlift (url_for_movie_details (ArgStr <$> imdb_id));
      hret (Redirect url)).

(** [delete_review], lines 247-259. *)
Definition delete_review (current_user : option User) (review_id : Z)
    : handler (AppState B) response :=
  login_required current_user (fun user =>
    admin_required user (
      do review_to_delete <- get_or_404 review_id;
      run (match imdb_id review_to_delete with
           | Some x => if truthy (imdb_id review_to_delete) then invalidate x else hret tt
           | None => hret tt
           end);
      run delete_row review_to_delete;
      hret (Redirect "/admin"))).

End Views.

(* ================================================================= *)
(** ** Importing the module *)

(** The top-level statements of [app.py] that matter at start: the load
    of the model (line 38) and, after it, the route decorators. *)
Inductive statement : Type :=
| LoadModel (path : string)
| Route (rule endpoint : string).

Definition app_module : list statement :=
  [ LoadModel "sentiment_model.joblib";
    Route "/" "home";
    Route "/register" "register";
    Route "/login" "login";
    Route "/logout" "logout";
    Route "/app" "app_index";
    Route "/app/profile" "profile";
    Route "/app/movie" "movie";
    Route "/app/movie/<string:imdb_id>" "movie_details";
    Route "/app/predict" "predict";
    Route "/admin" "admin";
    Route "/admin/delete/<int:review_id>" "delete_review" ].

Record module_state : Type := mkModuleState {
  model_global : option Pipeline;
  url_map : list (string * string)
}.

(** Executing the statements in order; an exception ends the import. *)
Fixpoint exec_module (joblib_load : string -> outcome Pipeline)
    (body : list statement) : handler module_state unit :=
  match body with
  | [] => hret tt
  | LoadModel path :: rest =>
      fun ms =>
        match joblib_load path with
        | Ret m => exec_module joblib_load rest (mkModuleState (Some m) (url_map ms))
        | Raise e => (Raise e, ms)
        end
  | Route rule endpoint :: rest =>
      fun ms =>
        exec_module joblib_load rest
          (mkModuleState (model_global ms) (url_map ms ++ [(rule, endpoint)]))
  end.

Definition import_app (joblib_load : string -> outcome Pipeline) : outcome unit * module_state :=
  exec_module joblib_load app_module (mkModuleState None []).

(** A request is dispatched to a handler only through the URL map of a
    module whose import returned. *)
Definition dispatch (imported : outcome unit * module_state) (rule : string) : option string :=
  match imported with
  | (Ret _, ms) => snd <$> List.find (fun re => String.eqb (fst re) rule) (url_map ms)
  | (Raise _, _) => None
  end.

(* ================================================================= *)
(** ** Sample data *)

(** A policy for the examples, whose caches hold one entry and are never
    pruned. *)
Definition drop_all : Z -> gmap string (Z * response) -> gmap string (Z * response) :=
  fun _ _ => ∅.

Definition alice : User := mkUser 1 "alice" "alice@example.org" "$2b$12$hash" false.

Definition root : User := mkUser 2 "root" "admin@admin.com" "$2b$12$hash" true.

Definition shawshank : gmap string string :=
  {[ "Title" := "The Shawshank Redemption"; "imdbID" := "tt0111161"; "Response" := "True" ]}.

(** A catalog that knows one film. *)
Definition catalog_up (x : string) : http_result :=
  if String.eqb x "tt0111161" then JsonBody shawshank
  else JsonBody {[ "Response" := "False"; "Error" := "Incorrect IMDb ID." ]}.

(** The catalog cannot be reached. *)
Definition catalog_down (x : string) : http_result := RequestException.

(** A pipeline that finds every text positive with probability 7/8. *)
Definition cheerful : Pipeline :=
  mkPipeline (fun texts => (fun _ => [1 # 8; 7 # 8]%Q) <$> texts) (fun texts => (fun _ => 1) <$> texts).

Definition wonderful_form : gmap string string :=
  {[ "review_text" := "this movie was wonderful"; "imdb_id" := "tt0111161" ]}.

(** Two users, no review yet. *)
Definition fresh (B : CacheBackend) (c : store B) : AppState B :=
  mkAppState [alice; root] [] c.

Definition admin_form : gmap string string :=
  {[ "username" := "carol"; "email" := "admin@admin.com"; "password" := "s3cret" ]}.

(** A stand-in for bcrypt in the examples. *)
Definition toy_hash (password : string) : string := "$2b$12$" +:+ password.

(** The review that [wonderful_form] submits as [alice]. *)
Definition wonderful_review : Review :=
  mkReview 1 "this movie was wonderful" "Positive" (Fin (7 # 8)) 1 (Some "tt0111161").

(** One positive review out of three. *)
Definition one_in_three : list Review :=
  [ mkReview 3 "dull" "Negative" (Fin (7 # 8)) 1 (Some "tt0111161");
    mkReview 2 "wonderful" "Positive" (Fin (15 # 16)) 1 (Some "tt0111161");
    mkReview 1 "too long" "Negative" (Fin (3 # 4)) 1 None ].

(* ================================================================= *)
(** ** Vocabulary of the properties *)

(** The number of reviews whose sentiment satisfies [p]. *)
Definition count_where (p : string -> bool) (reviews : list Review) : Z :=
  Z.of_nat (length (List.filter (fun r => p (sentiment r)) reviews)).

(** The key under which [cached] stores the detail view of [x]. *)
Definition detail_key (x : string) : string :=
  FlaskCaching.view_key ("/app/movie/" +:+ x).

(** The key that [cache.delete_memoized(movie_details, imdb_id)] deletes,
    whatever [imdb_id] is. *)
Definition invalidated_key (address : string) : string :=
  FlaskCaching.view_key
    ("/app/movie/" +:+ url_quote (py_str (ArgFunction "movie_details" address))).

(** The catalog lookup fails: a transport fault, or [Response: False]. *)
Definition lookup_fails (omdb : string -> http_result) (x : string) : Prop :=
  omdb x = RequestException \/
  exists d, omdb x = JsonBody d /\ d !! "Response" = Some "False".


(* ================================================================= *)
(** ** The statements of the specification that the code does not meet

    Each definition below words one statement of the specification as it
    stands; it is refuted on an input in the second part, next to the
    proof of the statement that holds instead. *)

(** What the specification says of the sum of the two percentages:
    exactly 100 on one review or more, exactly 0 on none. *)
Definition claimed_percent_sum (reviews : list Review) : Prop :=
  exists st pp np,
    profile_stats reviews = Ret st /\
    positive st + negative st = total st /\
    negative st = count_where (fun s => negb (String.eqb "Positive" s)) reviews /\
    num_value (positive_percent st) = Some pp /\
    num_value (negative_percent st) = Some np /\
    (0 < total st -> (pp + np == 100)%Q) /\
    (total st = 0 -> (pp + np == 0)%Q).

(** What the specification says of the page count: the ceiling of
    [total_results / 10], for every non-negative [total_results]. *)
Definition claimed_page_count (total_results : Z) : Prop :=
  total_pages total_results = Ret (Qceiling (inject_Z total_results / 10)).

(** What the specification says of a failed lookup: the view returns 'no
    data' and stores no entry for the identifier. *)
Definition claimed_negative_not_cached
    (evict : Z -> gmap string (Z * response) -> gmap string (Z * response))
    (debug : bool) (now : Z) (user : User) (omdb : string -> http_result)
    (x : string) (st : AppState (SimpleCache.backend evict)) : Prop :=
  lookup_fails omdb x ->
  SimpleCache.get now (detail_key x) (cache st) = None ->
  let '(o, st') :=
    movie_details (SimpleCache.backend evict) debug now (Some user) omdb x st in
  o = Ret (MovieDetailsPage None []) /\
  (cache st' : gmap string (Z * response)) !! detail_key x = None.

(* ================================================================= *)
(** ** The remaining views: [home], [login], [logout], [app_index],
       [movie] and [admin] *)

(** What these views return. [RedirectToLogin] is the answer of
    [login_manager.unauthorized()]: the redirect to the login page with
    the URL of the request in the query parameter [next]. *)
Inductive page : Type :=
| HomePage
| LoginPage
| IndexPage
| MoviePage (search_results : option (list (gmap string string)))
            (search_term : option string) (current_page total_pages : Z)
| AdminPage (reviews_with_users : list (Review * User))
| RedirectTo (location : string)
| RedirectToLogin.

(** The body of the answer of the catalog to a search: the fields that
    [movie] reads. *)
Record search_body : Type := mkSearchBody {
  body_response : option string;
  body_search : option (list (gmap string string));
  body_total_results : option string
}.

(** The answer of [requests.get(api_url)] followed by [response.json()]
    for a search. *)
Inductive search_result : Type :=
| SearchJson (body : search_body)
| SearchRequestException.

(** [o == value] for an optional string [o]. *)
Definition option_is (o : option string) (value : string) : bool :=
  match o with
  | Some v => String.eqb v value
  | None => false
  end.

Section OtherViews.

Variable B : CacheBackend.

(** [bcrypt.check_password_hash(pw_hash, password)]; [password] is what
    [request.form.get('password')] gave. *)
Variable check_password_hash : string -> option string -> outcome bool.

(** [int(s)] on a string. *)
Variable py_int : string -> outcome Z.

(** [@login_required] and [@admin_required] around a view that returns a
    [page]. *)
Definition login_required_page (current_user : option User)
    (view : User -> handler (AppState B) page) : handler (AppState B) page :=
  match current_user with
  | Some u => view u
  | None => hret RedirectToLogin
  end.

Definition admin_required_page (current_user : User)
    (view : handler (AppState B) page) : handler (AppState B) page :=
  if is_admin current_user then view else hret (RedirectTo "/app").

(** [home], lines 72-76. *)
Definition home (current_user : option User) : handler (AppState B) page :=
  match current_user with
  | Some _ => hret (RedirectTo "/app")
  | None => hret HomePage
  end.

(** [User.query.filter_by(email=email).first()] *)
Definition first_by_email (us : list User) (mail : option string) : option User :=
  match mail with
  | Some m => List.find (fun u => String.eqb (email u) m) us
  | None => None
  end.

(** [login], lines 95-109. The second component of the result is the user
    of the session after the request ([login_user] sets it). *)
Definition login (method : string) (current_user : option User)
    (form args : gmap string string) : handler (AppState B) (page * option User) :=
  match current_user with
  | Some u => hret (RedirectTo "/app", Some u)
  | None =>
      if String.eqb method "POST" then
        fun st =>
          let form_email := form !! "email" in
          let form_password := form !! "password" in
          match first_by_email (users st) form_email with
          | Some user =>
              match check_password_hash (password user) form_password with
              | Ret true =>
                  let next_page := args !! "next" in
                  (Ret (RedirectTo (match next_page with
                                    | Some n => if truthy next_page then n else "/app"
                                    | None => "/app"
                                    end), Some user), st)
              | Ret false => (Ret (LoginPage, None), st)
              | Raise e => (Raise e, st)
              end
          | None => (Ret (LoginPage, None), st)
          end
      else hret (LoginPage, None)
  end.

(** [logout], lines 111-114. *)
Definition logout : handler (AppState B) (page * option User) :=
  hret (RedirectTo "/", None).

(** [app_index], lines 117-120. *)
Definition app_index (current_user : option User) : handler (AppState B) page :=
  login_required_page current_user (fun _ => hret IndexPage).

(** [request.args.get('page', 1, type=int)] *)
Definition page_arg (args : gmap string string) : Z :=
  match args !! "page" with
  | Some s => match py_int s with
              | Ret n => n
              | Raise _ => 1
              end
  | None => 1
  end.

(** The search term of a request, lines 156-159. *)
Definition search_term_of (method : string) (args form : gmap string string)
    : option string :=
  if String.eqb method "GET" && truthy (args !! "s") then args !! "s"
  else if String.eqb method "POST" then form !! "movie_title"
  else None.

(** [movie], lines 148-180; [omdb_search] is the answer of the catalog to
    the search of a term on a page at the time of the request. *)
Definition movie (method : string) (current_user : option User)
    (args form : gmap string string)
    (omdb_search : string -> Z -> search_result) : handler (AppState B) page :=
  login_required_page current_user (fun _ =>
    let page := page_arg args in
    let search_term := search_term_of method args form in
    match search_term with
    | Some term =>
        if truthy search_term then
          match omdb_search term page with
          | SearchJson data =>
              if option_is (body_response data) "True" then
                do total_results <- hlift (match body_total_results data with
                                           | Some s => py_int s
                                           | None => Ret 0
                                           end);
                do total_pages <- hlift (total_pages total_results);
                hret (MoviePage (body_search data) search_term page total_pages)
              else hret (MoviePage None search_term page 0)
          | SearchRequestException => hret (MoviePage None search_term page 0)
          end
        else hret (MoviePage None search_term page 0)
    | None => hret (MoviePage None search_term page 0)
    end).

(** [admin], lines 240-245. *)
Definition admin (current_user : option User) : handler (AppState B) page :=
  login_required_page current_user (fun user =>
    admin_required_page user (fun st =>
      (Ret (AdminPage (order_by_desc (fun ru => review_id (fst ru))
                         (join_user (users st) (reviews st)))), st))).

End OtherViews.

(* ================================================================= *)
(** ** More sample data *)

(** Two users and one review. *)
Definition reviewed (B : CacheBackend) (c : store B) : AppState B :=
  mkAppState [alice; root] [wonderful_review] c.

(** A stand-in for the check of bcrypt in the examples, matching
    [toy_hash]; it raises on a missing password. *)
Definition toy_check (pw_hash : string) (password : option string) : outcome bool :=
  match password with
  | Some p => Ret (String.eqb pw_hash (toy_hash p))
  | None => Raise ValueError
  end.

Definition served (evict : Z -> gmap string (Z * response) -> gmap string (Z * response))
  : AppState (SimpleCache.backend evict) :=
  @mkAppState (SimpleCache.backend evict) [alice; root] [wonderful_review]
    (<[ detail_key "tt0111161" := (86400, MovieDetailsPage (Some shawshank) []) ]>
       (∅ : gmap string (Z * response))).
(* ================================================================= *)
(** * Properties *)

(** [Binary64.RN] agrees with the binary64 operations of the kernel on
    the quotients, products and sums met below. *)
Example RN_agrees_with_hardware_div :
  Binary64.hw (Binary64.hw_of_Z 1 / Binary64.hw_of_Z 3)%float = Some (Binary64.RN (1 # 3)) /\
  Binary64.hw (Binary64.hw_of_Z 2 / Binary64.hw_of_Z 3)%float = Some (Binary64.RN (2 # 3)) /\
  Binary64.hw (Binary64.hw_of_Z 25 / Binary64.hw_of_Z 10)%float = Some (Binary64.RN (25 # 10)) /\
  Binary64.hw (Binary64.hw_of_Z 1 / Binary64.hw_of_Z 1125899906842624)%float
    = Some (Binary64.RN (1 # 1125899906842624)).
Proof. repeat split; vm_compute; reflexivity. Qed.

Example RN_agrees_with_hardware_mul :
  Binary64.hw (Binary64.hw_of_Z 1 / Binary64.hw_of_Z 3 * Binary64.hw_of_Z 100)%float
    = Some (Binary64.RN (Binary64.RN (1 # 3) * 100)) /\
  Binary64.hw (Binary64.hw_of_Z 2 / Binary64.hw_of_Z 3 * Binary64.hw_of_Z 100)%float
    = Some (Binary64.RN (Binary64.RN (2 # 3) * 100)).
Proof. repeat split; vm_compute; reflexivity. Qed.

Example RN_agrees_with_hardware_add :
  Binary64.hw (Binary64.hw_of_Z 1 / Binary64.hw_of_Z 3 * Binary64.hw_of_Z 100
               + Binary64.hw_of_Z 2 / Binary64.hw_of_Z 3 * Binary64.hw_of_Z 100)%float
    = Some (Binary64.RN (Binary64.RN (Binary64.RN (1 # 3) * 100)
                         + Binary64.RN (Binary64.RN (2 # 3) * 100))).
Proof. vm_compute. reflexivity. Qed.

(* ----------------------------------------------------------------- *)
(** ** Rounding to binary64 *)

Module Binary64Facts.
Import Binary64.

Lemma inject_Z_minus (x y : Z) : inject_Z (x - y) = (inject_Z x - inject_Z y)%Q.
Proof. unfold Z.sub. now rewrite inject_Z_plus, inject_Z_opp. Qed.

Lemma pow2_pos e : (0 < pow2 e)%Q.
Proof. apply Qpower_0_lt. reflexivity. Qed.

Lemma pow2_add a b : (pow2 (a + b) == pow2 a * pow2 b)%Q.
Proof. apply Qpower_plus. discriminate. Qed.

Lemma pow2_of_nonneg n : 0 <= n -> (pow2 n == inject_Z (2 ^ n))%Q.
Proof. intros Hn. unfold pow2. now rewrite Zpower_Qpower. Qed.

Lemma pow2_mono a b : a <= b -> (pow2 a <= pow2 b)%Q.
Proof. intros Hab. apply Qpower_le_compat_l; [exact Hab | discriminate]. Qed.

Lemma pow2_lt_inv a b : (pow2 a < pow2 b)%Q -> a < b.
Proof. intros H. apply (Qpower_lt_compat_l_inv 2); [exact H | reflexivity]. Qed.

(** The nearest integer is at most one half away. *)
Lemma round_half_even_spec q :
  (Qabs (inject_Z (round_half_even q) - q) <= 1 # 2)%Q.
Proof.
  unfold round_half_even.
  pose proof (Qfloor_le q) as Hlo.
  pose proof (Qlt_floor q) as Hhi.
  rewrite inject_Z_plus in Hhi. change (inject_Z 1) with 1%Q in Hhi.
  set (f := Qfloor q) in *.
  apply Qabs_Qle_condition.
  destruct (Qcompare (q - inject_Z f) (1 # 2)) eqn:Hc.
  - apply Qeq_alt in Hc.
    destruct (Z.even f); rewrite ?inject_Z_plus;
      change (inject_Z 1) with 1%Q; split; lra.
  - apply Qlt_alt in Hc. split; lra.
  - apply Qgt_alt in Hc. rewrite inject_Z_plus.
    change (inject_Z 1) with 1%Q. split; lra.
Qed.

(** [ilog2] is a lower bound of the binary logarithm. *)
Lemma ilog2_lower x : (0 < x)%Q -> (pow2 (ilog2 x) <= x)%Q.
Proof.
  intros Hx. unfold ilog2.
  destruct (Qle_bool 1 x) eqn:H1.
  - apply Qle_bool_iff in H1.
    assert (Hf : 1 <= Qfloor x).
    { change 1 with (Qfloor 1). now apply Qfloor_resp_le. }
    rewrite pow2_of_nonneg by apply Z.log2_nonneg.
    apply Qle_trans with (inject_Z (Qfloor x)); [| apply Qfloor_le].
    rewrite <- Zle_Qle. apply Z.log2_spec. lia.
  - assert (Hlt : (x < 1)%Q).
    { apply Qnot_le_lt. intros Hle. apply Qle_bool_iff in Hle. congruence. }
    pose proof (Qle_ceiling (/ x)) as Hc.
    assert (Hinv : (x * / x == 1)%Q) by (apply Qmult_inv_r; lra).
    assert (Hix : (1 < / x)%Q) by nra.
    set (c := Qceiling (/ x)) in *.
    assert (Hc1 : 1 < c).
    { rewrite Zlt_Qlt. change (inject_Z 1) with 1%Q. lra. }
    pose proof (Z.log2_up_spec c Hc1) as [_ Hup].
    pose proof (Z.log2_up_nonneg c) as Hj.
    set (j := Z.log2_up c) in *.
    unfold pow2. rewrite Qpower_opp.
    fold (pow2 j). rewrite (pow2_of_nonneg j Hj).
    rewrite Zle_Qle in Hup.
    assert (Hp : (0 < inject_Z (2 ^ j))%Q) by lra.
    assert (Hinv2 : (inject_Z (2 ^ j) * / inject_Z (2 ^ j) == 1)%Q)
      by (apply Qmult_inv_r; lra).
    assert (Hpos : (0 < / inject_Z (2 ^ j))%Q) by (apply Qinv_lt_0_compat; lra).
    nra.
Qed.

(** [ilog2] is the binary logarithm rounded down. *)
Lemma ilog2_upper x : (0 < x)%Q -> (x < pow2 (ilog2 x + 1))%Q.
Proof.
  intros Hx. unfold ilog2.
  destruct (Qle_bool 1 x) eqn:H1.
  - apply Qle_bool_iff in H1.
    assert (Hf : 1 <= Qfloor x).
    { change 1 with (Qfloor 1). now apply Qfloor_resp_le. }
    pose proof (Z.log2_nonneg (Qfloor x)) as Hk.
    rewrite pow2_of_nonneg by lia.
    apply Qlt_le_trans with (inject_Z (Qfloor x + 1)); [apply Qlt_floor |].
    rewrite <- Zle_Qle.
    pose proof (Z.log2_spec (Qfloor x) ltac:(lia)) as [_ Hup].
    rewrite <- Z.add_1_r in Hup. lia.
  - assert (Hlt : (x < 1)%Q).
    { apply Qnot_le_lt. intros Hle. apply Qle_bool_iff in Hle. congruence. }
    pose proof (Qceiling_lt (/ x)) as Hc.
    assert (Hinv : (x * / x == 1)%Q) by (apply Qmult_inv_r; lra).
    assert (Hix : (1 < / x)%Q) by nra.
    pose proof (Qle_ceiling (/ x)) as Hc'.
    set (c := Qceiling (/ x)) in *.
    assert (Hc1 : 1 < c).
    { rewrite Zlt_Qlt. change (inject_Z 1) with 1%Q. lra. }
    pose proof (Z.log2_up_spec c Hc1) as [Hlow _].
    assert (Hj : 0 < Z.log2_up c) by (apply Z.log2_up_pos; lia).
    set (j := Z.log2_up c) in *.
    replace (- j + 1) with (- (j - 1)) by lia.
    unfold pow2. rewrite Qpower_opp.
    fold (pow2 (j - 1)). rewrite (pow2_of_nonneg (j - 1)) by lia.
    replace (Z.pred j) with (j - 1) in Hlow by lia.
    assert (Hle : 2 ^ (j - 1) <= c - 1) by lia.
    rewrite Zle_Qle in Hle.
    assert (Hp : (0 < inject_Z (2 ^ (j - 1)))%Q).
    { change 0%Q with (inject_Z 0). rewrite <- Zlt_Qlt. apply Z.pow_pos_nonneg; lia. }
    assert (Hinv2 : (inject_Z (2 ^ (j - 1)) * / inject_Z (2 ^ (j - 1)) == 1)%Q)
      by (apply Qmult_inv_r; lra).
    assert (Hpos : (0 < / inject_Z (2 ^ (j - 1)))%Q) by (apply Qinv_lt_0_compat; lra).
    nra.
Qed.

(** The rounding error: half a unit in the last place, which is
    relative 2^-53 in the normal range and absolute 2^-1075 below. *)
Lemma round_pos_error x :
  (0 < x)%Q ->
  (Qabs (round_pos x - x) <= x * pow2 (-53) + pow2 (-1075))%Q.
Proof.
  intros Hx. unfold round_pos. rewrite Qred_correct.
  set (e := ulp_exp x).
  pose proof (pow2_pos e) as He.
  pose proof (round_half_even_spec (x / pow2 e)) as Hm.
  set (m := inject_Z (round_half_even (x / pow2 e))) in *.
  apply Qabs_Qle_condition in Hm. destruct Hm as [Hm1 Hm2].
  assert (Hdiv : (x / pow2 e * pow2 e == x)%Q).
  { field. lra. }
  set (y := (x / pow2 e)%Q) in *.
  assert (Hhalf : (pow2 e * (1 # 2) <= x * pow2 (-53) + pow2 (-1075))%Q).
  { pose proof (pow2_pos (-1075)) as Heta.
    pose proof (pow2_pos (-53)) as Hu.
    unfold e, ulp_exp.
    destruct (Z.max_spec (ilog2 x - 52) (-1074)) as [[_ ->] | [_ ->]].
    - assert (E : (pow2 (-1074) == pow2 (-1075) * 2)%Q).
      { change (-1074) with (-1075 + 1). rewrite pow2_add. reflexivity. }
      nra.
    - pose proof (ilog2_lower x Hx) as Hk.
      replace (ilog2 x - 52) with (ilog2 x + -52) by lia.
      rewrite pow2_add.
      assert (E : (pow2 (-52) * (1 # 2) == pow2 (-53))%Q) by reflexivity.
      nra. }
  apply Qabs_Qle_condition. split; nra.
Qed.

Lemma round_pos_nonneg x : (0 < x)%Q -> (0 <= round_pos x)%Q.
Proof.
  intros Hx. unfold round_pos. rewrite Qred_correct.
  set (e := ulp_exp x).
  pose proof (pow2_pos e) as He.
  pose proof (round_half_even_spec (x / pow2 e)) as Hm.
  apply Qabs_Qle_condition in Hm. destruct Hm as [Hm1 _].
  assert (Hy : (0 < x / pow2 e)%Q).
  { apply Qlt_shift_div_l; lra. }
  assert (Hz : 0 <= round_half_even (x / pow2 e)).
  { destruct (Z.le_gt_cases 0 (round_half_even (x / pow2 e))) as [|Hneg]; [assumption|].
    exfalso.
    assert (round_half_even (x / pow2 e) <= -1) by lia.
    rewrite Zle_Qle in H. change (inject_Z (-1)) with (-1)%Q in H. lra. }
  rewrite Zle_Qle in Hz. change (inject_Z 0) with 0%Q in Hz. nra.
Qed.

Lemma Qnum_sign (x : Q) :
  match Qnum x with
  | Z0 => (x == 0)%Q
  | Zpos _ => (0 < x)%Q
  | Zneg _ => (x < 0)%Q
  end.
Proof.
  destruct x as [n d]. simpl.
  destruct n; unfold Qeq, Qlt; simpl; lia.
Qed.

Lemma RN_error x :
  (0 <= x)%Q ->
  (Qabs (RN x - x) <= x * pow2 (-53) + pow2 (-1075))%Q.
Proof.
  intros Hx. unfold RN.
  pose proof (Qnum_sign x) as Hs.
  pose proof (pow2_pos (-1075)) as Heta.
  pose proof (pow2_pos (-53)) as Hu.
  destruct (Qnum x).
  - apply Qabs_Qle_condition. split; nra.
  - now apply round_pos_error.
  - lra.
Qed.

Lemma RN_nonneg x : (0 <= x)%Q -> (0 <= RN x)%Q.
Proof.
  intros Hx. unfold RN.
  pose proof (Qnum_sign x) as Hs.
  destruct (Qnum x).
  - lra.
  - now apply round_pos_nonneg.
  - lra.
Qed.

End Binary64Facts.

(* ----------------------------------------------------------------- *)
(** ** Python floats *)

Module PyFacts.
Import Binary64 Binary64Facts.

(** Results that stay far below the overflow threshold are finite. *)
Lemma fl_finite x :
  (0 <= x)%Q -> (x <= 1152921504606846976)%Q -> fl x = Fin (RN x).
Proof.
  intros H0 Hb. unfold fl.
  pose proof (RN_error x H0) as He.
  pose proof (RN_nonneg x H0) as Hn.
  apply Qabs_Qle_condition in He.
  assert (Hu : (pow2 (-53) <= 1)%Q) by (vm_compute; discriminate).
  assert (Heta : (pow2 (-1075) <= 1)%Q) by (vm_compute; discriminate).
  assert (Hthr : (4611686018427387904 < overflow_threshold)%Q) by (vm_compute; reflexivity).
  destruct (Qle_bool overflow_threshold (Qabs (RN x))) eqn:Hov; [| reflexivity].
  exfalso. apply Qle_bool_iff in Hov.
  rewrite Qabs_pos in Hov by assumption.
  nra.
Qed.

(** [p / t] for 0 <= p <= t: a finite float, no exception. *)
Lemma truediv_ratio p t :
  0 <= p <= t -> 0 < t ->
  truediv p t = Ret (Fin (RN (inject_Z p / inject_Z t))).
Proof.
  intros [H0 H1] Ht. unfold truediv.
  destruct (Z.eqb_spec t 0) as [-> | _]; [lia |].
  rewrite Zle_Qle in H0, H1. rewrite Zlt_Qlt in Ht.
  change (inject_Z 0) with 0%Q in *.
  rewrite fl_finite; [reflexivity | |].
  - apply Qle_shift_div_l; lra.
  - apply Qle_shift_div_r; lra.
Qed.

Lemma ratio_bounds p t :
  0 <= p <= t -> 0 < t ->
  (0 <= inject_Z p / inject_Z t <= 1)%Q.
Proof.
  intros [H0 H1] Ht.
  rewrite Zle_Qle in H0, H1. rewrite Zlt_Qlt in Ht.
  change (inject_Z 0) with 0%Q in *.
  split; [apply Qle_shift_div_l | apply Qle_shift_div_r]; lra.
Qed.

(** [(p / t) * 100]: the float the handler stores, and its distance
    from the exact percentage. *)
Lemma percent_error x :
  (0 <= x <= 1)%Q ->
  float_mul (Fin (RN x)) (Fin 100) = Fin (RN (RN x * 100)) /\
  (0 <= RN (RN x * 100))%Q /\
  (Qabs (RN (RN x * 100) - 100 * x)
     <= x * (201 # 9007199254740992) + 102 * pow2 (-1075))%Q.
Proof.
  intros [Hx0 Hx1].
  pose proof (RN_error x Hx0) as Hf.
  pose proof (RN_nonneg x Hx0) as Hf0.
  set (f := RN x) in *.
  assert (H100 : (0 <= f * 100)%Q) by lra.
  pose proof (RN_error (f * 100) H100) as Hg.
  pose proof (RN_nonneg (f * 100) H100) as Hg0.
  set (g := RN (f * 100)) in *.
  pose proof (pow2_pos (-1075)) as Heta.
  assert (Heta1 : (pow2 (-1075) <= 1)%Q) by (vm_compute; discriminate).
  set (eta := pow2 (-1075)) in *.
  change (pow2 (-53)) with (1 # 9007199254740992)%Q in *.
  apply Qabs_Qle_condition in Hf. apply Qabs_Qle_condition in Hg.
  split; [| split; [assumption |]].
  - cbn [float_mul]. apply fl_finite; lra.
  - apply Qabs_Qle_condition. split; lra.
Qed.

End PyFacts.

(* ----------------------------------------------------------------- *)
(** ** Pagination *)

Module PaginationFacts.
Import Binary64 Binary64Facts PyFacts.

Lemma Qceiling_unique q c :
  (inject_Z (c - 1) < q)%Q -> (q <= inject_Z c)%Q -> Qceiling q = c.
Proof.
  intros Hlo Hhi.
  pose proof (Qle_ceiling q) as H1.
  pose proof (Qceiling_lt q) as H2.
  assert (c - 1 < Qceiling q) by (rewrite Zlt_Qlt; lra).
  assert (Qceiling q - 1 < c) by (rewrite Zlt_Qlt; lra).
  lia.
Qed.

(** Below 2^50 the unit in the last place is at most 1/8. *)
Lemma ulp_exp_small x :
  (0 < x)%Q -> (x < pow2 50)%Q -> ulp_exp x <= -3.
Proof.
  intros Hx Hb. unfold ulp_exp.
  pose proof (ilog2_lower x Hx) as Hk.
  assert (ilog2 x < 50) by (apply pow2_lt_inv; lra).
  lia.
Qed.

Lemma pow2_neg_inv s : 0 <= s -> (pow2 (- s) * inject_Z (2 ^ s) == 1)%Q.
Proof.
  intros Hs. rewrite <- (pow2_of_nonneg s Hs), <- pow2_add.
  replace (- s + s) with 0 by lia. reflexivity.
Qed.

(** Rounding a quotient by ten below 2^50 never crosses an integer. *)
Lemma RN_keeps_ceiling n :
  1 <= n < 10 * 2 ^ 50 ->
  Qceiling (RN (inject_Z n / inject_Z 10)) = Qceiling (inject_Z n / inject_Z 10).
Proof.
  intros [Hn1 Hn2].
  set (x := (inject_Z n / inject_Z 10)%Q).
  assert (Hx10 : (x * 10 == inject_Z n)%Q) by (unfold x; field).
  assert (Hn1q : (1 <= inject_Z n)%Q) by (change 1%Q with (inject_Z 1); now rewrite <- Zle_Qle).
  assert (Hn2q : (inject_Z n < inject_Z (10 * 2 ^ 50))%Q) by now rewrite <- Zlt_Qlt.
  assert (Hp50 : (pow2 50 * 10 == inject_Z (10 * 2 ^ 50))%Q) by reflexivity.
  assert (Hx : (0 < x)%Q) by lra.
  assert (Hxb : (x < pow2 50)%Q) by lra.
  unfold RN. pose proof (Qnum_sign x) as Hs.
  destruct (Qnum x); [lra | | lra]. clear Hs.
  unfold round_pos. rewrite Qred_correct.
  pose proof (ulp_exp_small x Hx Hxb) as He.
  set (e := ulp_exp x) in *.
  set (s := - e).
  assert (Hs : 3 <= s) by (unfold s; lia).
  replace e with (- s) by (unfold s; lia).
  pose proof (pow2_neg_inv s ltac:(lia)) as HN.
  assert (HN8 : 8 <= 2 ^ s).
  { change 8 with (2 ^ 3). apply Z.pow_le_mono_r; lia. }
  set (N := 2 ^ s) in *.
  assert (HN8q : (8 <= inject_Z N)%Q) by (change 8%Q with (inject_Z 8); now rewrite <- Zle_Qle).
  pose proof (pow2_pos (- s)) as HP.
  set (P := pow2 (- s)) in *.
  pose proof (round_half_even_spec (x / P)) as Hm.
  assert (Hy : (x / P == x * inject_Z N)%Q) by (field_simplify_eq; [nra | lra]).
  set (m := round_half_even (x / P)) in *.
  rewrite Hy in Hm.
  apply Qabs_Qle_condition in Hm. destruct Hm as [Hm1 Hm2].
  (* the ceiling of the exact quotient *)
  pose proof (Qle_ceiling x) as Hc1.
  pose proof (Qceiling_lt x) as Hc2.
  set (c := Qceiling x) in *.
  rewrite inject_Z_minus in Hc2. change (inject_Z 1) with 1%Q in Hc2.
  assert (Hzc1 : n <= 10 * c).
  { rewrite Zle_Qle, inject_Z_mult. change (inject_Z 10) with 10%Q. lra. }
  assert (Hzc2 : 10 * (c - 1) + 1 <= n).
  { assert (10 * (c - 1) < n); [| lia].
    rewrite Zlt_Qlt, inject_Z_mult, inject_Z_minus.
    change (inject_Z 10) with 10%Q. change (inject_Z 1) with 1%Q. lra. }
  (* the rounded significand, as integer inequalities *)
  assert (Hzm1 : 10 * m <= n * N + 5).
  { rewrite Zle_Qle, inject_Z_plus, !inject_Z_mult.
    change (inject_Z 10) with 10%Q. change (inject_Z 5) with 5%Q. nra. }
  assert (Hzm2 : n * N - 5 <= 10 * m).
  { rewrite Zle_Qle, inject_Z_minus, !inject_Z_mult.
    change (inject_Z 10) with 10%Q. change (inject_Z 5) with 5%Q. nra. }
  assert (Hu : m <= c * N) by nia.
  assert (Hl : (c - 1) * N < m) by nia.
  assert (Hscale : forall a : Q, (a == a * inject_Z N * P)%Q).
  { intros a. rewrite <- Qmult_assoc, (Qmult_comm (inject_Z N)), HN. ring. }
  apply Qceiling_unique.
  - rewrite Zlt_Qlt, inject_Z_mult in Hl.
    rewrite (Hscale (inject_Z (c - 1))).
    apply Qmult_lt_compat_r; assumption.
  - rewrite Zle_Qle, inject_Z_mult in Hu.
    rewrite (Hscale (inject_Z c)).
    apply Qmult_le_compat_r; [assumption | lra].
Qed.

Lemma truediv_ten n :
  0 <= n <= 10 * 2 ^ 50 ->
  truediv n 10 = Ret (Fin (RN (inject_Z n / inject_Z 10))).
Proof.
  intros [H0 H1]. unfold truediv. simpl (10 =? 0).
  rewrite fl_finite; [reflexivity | |].
  - rewrite Zle_Qle in H0. change (inject_Z 0) with 0%Q in H0.
    apply Qle_shift_div_l; [reflexivity | lra].
  - rewrite Zle_Qle in H1.
    apply Qle_shift_div_r; [reflexivity |].
    eapply Qle_trans; [exact H1 |]. vm_compute. discriminate.
Qed.

End PaginationFacts.

(** C5, as amended. For every [total_results] from 0 to 10 * 2^50 the page
    count computed by [movie] is the ceiling of [total_results / 10]; in
    particular 0, 10 and 25 results give 0, 1 and 3 pages. *)
Theorem total_pages_is_ceiling (total_results : Z)
    (Hrange : 0 <= total_results <= 10 * 2 ^ 50) :
  total_pages total_results = Ret (Qceiling (inject_Z total_results / 10)) /\
  total_pages 0 = Ret 0 /\ total_pages 10 = Ret 1 /\ total_pages 25 = Ret 3.
Proof.
  split; [| repeat split; vm_compute; reflexivity].
  unfold total_pages.
  rewrite (PaginationFacts.truediv_ten _ Hrange). cbn [mbind outcome_bind bind math_ceil].
  f_equal.
  destruct (Z.eq_dec total_results 0) as [-> | Hnz]; [vm_compute; reflexivity |].
  destruct (Z.eq_dec total_results (10 * 2 ^ 50)) as [-> | Hne]; [vm_compute; reflexivity |].
  change (10%Q) with (inject_Z 10).
  apply PaginationFacts.RN_keeps_ceiling. lia.
Qed.

Lemma total_pages_is_ceiling_witness :
  0 <= 25 <= 10 * 2 ^ 50 /\ total_pages 25 = Ret (Qceiling (inject_Z 25 / 10)).
Proof.
  split; [lia |].
  apply (total_pages_is_ceiling 25). lia.
Defined.

(** C5, as stated, fails just above 10 * 2^50: the quotient
    1125899906842624.1 is not a binary64 value; it is rounded down to the
    integer 2^50 before [math.ceil] sees it. *)
Lemma total_pages_counterexample :
  total_pages 11258999068426241 = Ret 1125899906842624 /\
  Qceiling (inject_Z 11258999068426241 / 10) = 1125899906842625 /\
  ~ claimed_page_count 11258999068426241.
Proof.
  assert (H1 : total_pages 11258999068426241 = Ret 1125899906842624)
    by (vm_compute; reflexivity).
  assert (H2 : Qceiling (inject_Z 11258999068426241 / 10) = 1125899906842625)
    by (vm_compute; reflexivity).
  repeat split; try assumption.
  unfold claimed_page_count. rewrite H1, H2. discriminate.
Qed.

(* ----------------------------------------------------------------- *)
(** ** Aggregation *)

Module AggregationFacts.
Import Binary64 Binary64Facts PyFacts.

Lemma positive_count_is_count reviews :
  positive_count reviews = count_where (String.eqb "Positive") reviews.
Proof.
  unfold count_where. induction reviews as [| r rest IH]; [reflexivity |].
  cbn [positive_count List.filter]. rewrite IH.
  rewrite (String.eqb_sym "Positive").
  destruct (String.eqb (sentiment r) "Positive"); cbn [length]; lia.
Qed.

Lemma positive_count_bounds reviews :
  0 <= positive_count reviews <= Z.of_nat (length reviews).
Proof.
  induction reviews as [| r rest IH]; [cbn; lia |].
  cbn [positive_count length].
  destruct (String.eqb (sentiment r) "Positive"); lia.
Qed.

(** The reviews that are not counted positive are the ones whose
    sentiment is any other string. *)
Lemma negative_is_rest reviews :
  Z.of_nat (length reviews) - positive_count reviews
  = count_where (fun s => negb (String.eqb "Positive" s)) reviews.
Proof.
  unfold count_where. induction reviews as [| r rest IH]; [reflexivity |].
  cbn [positive_count List.filter length].
  rewrite (String.eqb_sym "Positive").
  destruct (String.eqb (sentiment r) "Positive"); cbn [negb length]; lia.
Qed.

(** The handler on a non-empty list: both quotients are finite floats. *)
Lemma profile_stats_nonempty reviews :
  reviews <> [] ->
  let t := Z.of_nat (length reviews) in
  let p := positive_count reviews in
  profile_stats reviews =
    Ret (mkStats t p (t - p)
           (PFloat (Fin (RN (RN (inject_Z p / inject_Z t) * 100))))
           (PFloat (Fin (RN (RN (inject_Z (t - p) / inject_Z t) * 100))))).
Proof.
  intros Hne t p. unfold profile_stats. fold t. fold p.
  pose proof (positive_count_bounds reviews) as Hp. fold t p in Hp.
  assert (Ht : 0 < t) by (unfold t; destruct reviews; [congruence | cbn; lia]).
  destruct (Z.ltb_spec 0 t) as [_ | ?]; [| lia].
  rewrite (truediv_ratio p t) by lia.
  rewrite (truediv_ratio (t - p) t) by lia.
  cbn [mbind outcome_bind bind].
  destruct (percent_error _ (ratio_bounds p t ltac:(lia) Ht)) as [-> _].
  destruct (percent_error _ (ratio_bounds (t - p) t ltac:(lia) Ht)) as [-> _].
  reflexivity.
Qed.

End AggregationFacts.

(** C4. For every sequence of reviews [profile] computes stats with
    total = the length, positive = the number of reviews whose sentiment
    is 'Positive' and negative = total - positive; on an empty sequence
    all five fields are 0 and nothing is divided; otherwise each
    percentage is [100 * count / total] as floats give it: the finite
    binary64 float [(count / total) * 100], the quotient rounded and then
    the product, which is within 2^-45 of the exact value
    [100 * count / total]. *)
Theorem profile_stats_aggregation (reviews : list Review) :
  exists st,
    profile_stats reviews = Ret st /\
    total st = Z.of_nat (length reviews) /\
    positive st = count_where (String.eqb "Positive") reviews /\
    negative st = total st - positive st /\
    (0 < total st ->
       exists pp np,
         positive_percent st = PFloat (Fin pp) /\
         negative_percent st = PFloat (Fin np) /\
         pp = Binary64.RN (Binary64.RN (inject_Z (positive st) / inject_Z (total st)) * 100) /\
         np = Binary64.RN (Binary64.RN (inject_Z (negative st) / inject_Z (total st)) * 100) /\
         (Qabs (pp - 100 * inject_Z (positive st) / inject_Z (total st))
            <= 1 # 35184372088832)%Q /\
         (Qabs (np - 100 * inject_Z (negative st) / inject_Z (total st))
            <= 1 # 35184372088832)%Q) /\
    (reviews = [] -> st = mkStats 0 0 0 (PInt 0) (PInt 0)).
Proof.
  destruct reviews as [| r rest].
  - eexists. split; [reflexivity |]. cbn. repeat split; try lia.
  - pose proof (AggregationFacts.profile_stats_nonempty (r :: rest) ltac:(discriminate)) as Hst.
    cbv zeta in Hst.
    pose proof (AggregationFacts.positive_count_bounds (r :: rest)) as Hp.
    set (t := Z.of_nat (length (r :: rest))) in *.
    set (p := positive_count (r :: rest)) in *.
    assert (Ht : 0 < t) by (unfold t; cbn; lia).
    eexists. split; [exact Hst |]. cbn [total positive negative positive_percent negative_percent].
    split; [reflexivity |].
    split; [apply AggregationFacts.positive_count_is_count |].
    split; [reflexivity |].
    split; [| discriminate].
    intros _. do 2 eexists.
    split; [reflexivity |]. split; [reflexivity |].
    split; [reflexivity |]. split; [reflexivity |].
    assert (Heta : (Binary64.pow2 (-1075) <= 1 # 1152921504606846976)%Q)
      by (vm_compute; discriminate).
    pose proof (Binary64Facts.pow2_pos (-1075)) as Heta0.
    split.
    + destruct (PyFacts.percent_error _ (PyFacts.ratio_bounds p t ltac:(lia) Ht))
        as (_ & _ & Hb).
      pose proof (PyFacts.ratio_bounds p t ltac:(lia) Ht) as [Hx0 Hx1].
      setoid_replace (100 * inject_Z p / inject_Z t)%Q
        with (100 * (inject_Z p / inject_Z t))%Q using relation Qeq
        by (unfold Qdiv; ring).
      set (x := (inject_Z p / inject_Z t)%Q) in *.
      set (eta := Binary64.pow2 (-1075)) in *.
      eapply Qle_trans; [exact Hb | lra].
    + destruct (PyFacts.percent_error _ (PyFacts.ratio_bounds (t - p) t ltac:(lia) Ht))
        as (_ & _ & Hb).
      pose proof (PyFacts.ratio_bounds (t - p) t ltac:(lia) Ht) as [Hx0 Hx1].
      setoid_replace (100 * inject_Z (t - p) / inject_Z t)%Q
        with (100 * (inject_Z (t - p) / inject_Z t))%Q using relation Qeq
        by (unfold Qdiv; ring).
      set (x := (inject_Z (t - p) / inject_Z t)%Q) in *.
      set (eta := Binary64.pow2 (-1075)) in *.
      eapply Qle_trans; [exact Hb | lra].
Qed.

(** C10, as amended. For every sequence of reviews, positive + negative =
    total, and negative is the number of reviews whose sentiment is any
    string other than 'Positive'; the two percentages add up to exactly 0
    when total = 0, and to a value within 2^-45 of 100 when total > 0. *)
Theorem profile_stats_percent_sum (reviews : list Review) :
  exists st pp np,
    profile_stats reviews = Ret st /\
    positive st + negative st = total st /\
    negative st = count_where (fun s => negb (String.eqb "Positive" s)) reviews /\
    num_value (positive_percent st) = Some pp /\
    num_value (negative_percent st) = Some np /\
    (0 < total st -> (Qabs (pp + np - 100) <= 1 # 35184372088832)%Q) /\
    (total st = 0 -> (pp + np == 0)%Q).
Proof.
  destruct reviews as [| r rest].
  - do 3 eexists. split; [reflexivity |]. cbn.
    repeat split; try reflexivity; lia.
  - pose proof (AggregationFacts.profile_stats_nonempty (r :: rest) ltac:(discriminate)) as Hst.
    cbv zeta in Hst.
    pose proof (AggregationFacts.positive_count_bounds (r :: rest)) as Hp.
    pose proof (AggregationFacts.negative_is_rest (r :: rest)) as Hneg.
    set (t := Z.of_nat (length (r :: rest))) in *.
    set (p := positive_count (r :: rest)) in *.
    assert (Ht : 0 < t) by (unfold t; cbn; lia).
    do 3 eexists. split; [exact Hst |].
    cbn [total positive negative positive_percent negative_percent num_value].
    split; [lia |]. split; [exact Hneg |].
    split; [reflexivity |]. split; [reflexivity |].
    split; [| lia].
    intros _.
    destruct (PyFacts.percent_error _ (PyFacts.ratio_bounds p t ltac:(lia) Ht))
      as (_ & _ & Hb1).
    destruct (PyFacts.percent_error _ (PyFacts.ratio_bounds (t - p) t ltac:(lia) Ht))
      as (_ & _ & Hb2).
    pose proof (PyFacts.ratio_bounds p t ltac:(lia) Ht) as [Hx0 Hx1].
    assert (Hsum : (inject_Z p / inject_Z t + inject_Z (t - p) / inject_Z t == 1)%Q).
    { rewrite Binary64Facts.inject_Z_minus. field.
      rewrite Zlt_Qlt in Ht. change (inject_Z 0) with 0%Q in Ht. lra. }
    assert (Heta : (Binary64.pow2 (-1075) <= 1 # 1152921504606846976)%Q)
      by (vm_compute; discriminate).
    pose proof (Binary64Facts.pow2_pos (-1075)) as Heta0.
    set (x1 := (inject_Z p / inject_Z t)%Q) in *.
    set (x2 := (inject_Z (t - p) / inject_Z t)%Q) in *.
    set (eta := Binary64.pow2 (-1075)) in *.
    set (g1 := Binary64.RN (Binary64.RN x1 * 100)) in *.
    set (g2 := Binary64.RN (Binary64.RN x2 * 100)) in *.
    apply Qabs_Qle_condition in Hb1. apply Qabs_Qle_condition in Hb2.
    apply Qabs_Qle_condition. split; lra.
Qed.

(** C10, as stated, fails on one positive review out of three: the two
    stored percentages are 33.33333333333333 and 66.66666666666666, whose
    sum is 100 - 2^-46, and Python's float addition of the two gives
    99.99999999999999. *)
Lemma percent_sum_counterexample :
  profile_stats one_in_three
    = Ret (mkStats 3 1 2
             (PFloat (Fin (2345624805922133 # 70368744177664)))
             (PFloat (Fin (2345624805922133 # 35184372088832)))) /\
  float_add (Fin (2345624805922133 # 70368744177664))
            (Fin (2345624805922133 # 35184372088832))
    = Fin (7036874417766399 # 70368744177664) /\
  ~ claimed_percent_sum one_in_three.
Proof.
  assert (Hst : profile_stats one_in_three
    = Ret (mkStats 3 1 2
             (PFloat (Fin (2345624805922133 # 70368744177664)))
             (PFloat (Fin (2345624805922133 # 35184372088832)))))
    by (vm_compute; reflexivity).
  split; [exact Hst |]. split; [vm_compute; reflexivity |].
  intros (st & pp & np & Hret & _ & _ & Hpp & Hnp & Hsum & _).
  rewrite Hst in Hret. injection Hret as <-.
  cbn in Hpp, Hnp. injection Hpp as <-. injection Hnp as <-.
  specialize (Hsum ltac:(cbn; lia)).
  vm_compute in Hsum. discriminate.
Qed.

(* ----------------------------------------------------------------- *)
(** ** Start of the service *)

(** C9. If [joblib.load('sentiment_model.joblib')] raises, the import of
    the module raises the same exception at that statement: no model is
    bound, no route has been registered, and no request can be dispatched
    to a handler. *)
Theorem import_fails_without_model
    (joblib_load : string -> outcome Pipeline) (e : exn)
    (Hload : joblib_load "sentiment_model.joblib" = Raise e) :
  import_app joblib_load = (Raise e, mkModuleState None []) /\
  forall rule, dispatch (import_app joblib_load) rule = None.
Proof.
  assert (H : import_app joblib_load = (Raise e, mkModuleState None [])).
  { unfold import_app, app_module. cbn [exec_module]. now rewrite Hload. }
  split; [exact H |].
  intros rule. now rewrite H.
Qed.

Lemma import_fails_without_model_witness :
  import_app (fun _ => Raise FileNotFoundError)
    = (Raise FileNotFoundError, mkModuleState None []) /\
  forall rule, dispatch (import_app (fun _ => Raise FileNotFoundError)) rule = None.
Proof.
  apply (import_fails_without_model (fun _ => Raise FileNotFoundError) FileNotFoundError).
  reflexivity.
Defined.

(** With the model on disk the import returns and the routes are served. *)
Example import_with_model :
  dispatch (import_app (fun _ => Ret cheerful)) "/app/predict" = Some "predict".
Proof. reflexivity. Qed.

(* ----------------------------------------------------------------- *)
(** ** Registration *)

Module RegisterFacts.
Section Facts.
Context (B : CacheBackend) (bcrypt_hash : string -> string).

(** A POST by an anonymous visitor with fresh name and email and a
    non-empty password creates the user. *)
Lemma register_creates (form : gmap string string) (st : AppState B) n m c p :
  form !! "username" = Some n ->
  form !! "email" = Some m ->
  form !! "password" = Some (String c p) ->
  existsb (fun u => String.eqb (username u) n || String.eqb (email u) m) (users st) = false ->
  register B bcrypt_hash "POST" None form st
  = (Ret (Redirect "/login"),
     set_users st (users st ++
       [mkUser (next_id (user_id_of <$> users st)) n m (bcrypt_hash (String c p))
               (String.eqb m "admin@admin.com")])).
Proof.
  intros Hn Hm Hp Hfree. unfold register. cbn [String.eqb Ascii.eqb Bool.eqb].
  rewrite Hn, Hm, Hp. unfold hbind, hlift, hret, add_user. cbn.
  now rewrite Hfree.
Qed.

End Facts.
End RegisterFacts.

(** C8. Whenever [register] creates a user, the email was submitted and the
    new user is an administrator if and only if that email is exactly
    'admin@admin.com'. *)
Theorem register_admin_iff_email
    (B : CacheBackend) (bcrypt_hash : string -> string)
    (method : string) (current_user : option User) (form : gmap string string)
    (st st' : AppState B) (o : outcome response)
    (Hrun : register B bcrypt_hash method current_user form st = (o, st'))
    (Hcreated : users st' <> users st) :
  exists u mail,
    form !! "email" = Some mail /\
    users st' = users st ++ [u] /\
    email u = mail /\
    (is_admin u = true <-> mail = "admin@admin.com").
Proof.
  unfold register in Hrun.
  destruct current_user; [injection Hrun as <- <-; congruence |].
  destruct (String.eqb method "POST"); [| injection Hrun as <- <-; congruence].
  unfold hbind, hlift, hret in Hrun.
  destruct (generate_password_hash bcrypt_hash (form !! "password")) as [h | e];
    [| injection Hrun as <- <-; congruence].
  unfold add_user in Hrun.
  destruct (form !! "username") as [n |]; [| injection Hrun as <- <-; congruence].
  destruct (form !! "email") as [m |]; [| injection Hrun as <- <-; congruence].
  destruct (existsb _ (users st)); [injection Hrun as <- <-; congruence |].
  injection Hrun as <- <-.
  eexists. exists m. split; [reflexivity |]. split; [reflexivity |]. split; [reflexivity |].
  cbn [is_admin]. apply String.eqb_eq.
Qed.

Lemma register_admin_iff_email_witness :
  let st := @mkAppState DownCache [alice] [] tt in
  let st' := snd (register DownCache toy_hash "POST" None admin_form st) in
  exists u mail,
    admin_form !! "email" = Some mail /\
    users st' = users st ++ [u] /\
    email u = mail /\
    (is_admin u = true <-> mail = "admin@admin.com").
Proof.
  cbv zeta.
  apply (register_admin_iff_email DownCache toy_hash "POST" None admin_form
           (@mkAppState DownCache [alice] [] tt) _ (Ret (Redirect "/login"))).
  - vm_compute. reflexivity.
  - vm_compute. discriminate.
Defined.

(** Any other address registers an ordinary user. *)
Example register_ordinary_user :
  users (snd (register DownCache toy_hash "POST" None
                {[ "username" := "dave"; "email" := "Admin@admin.com"; "password" := "pw" ]}
                (@mkAppState DownCache [alice] [] tt)))
  = [alice; mkUser 2 "dave" "Admin@admin.com" "$2b$12$pw" false].
Proof. vm_compute. reflexivity. Qed.

(* ----------------------------------------------------------------- *)
(** ** The cache of the detail view *)

Module CacheFacts.
Section Facts.
Context (evict : Z -> gmap string (Z * response) -> gmap string (Z * response)).
Context (debug : bool).

Local Abbreviation B := (SimpleCache.backend evict).

Lemma state_eta (st : AppState B) :
  mkAppState (users st) (reviews st) (cache st) = st.
Proof. now destruct st. Qed.

(** An entry just stored is served until its time is up. *)
Lemma get_set now now' key rv c :
  now' < now + 86400 ->
  SimpleCache.get now' key (SimpleCache.set evict now key rv 86400 c) = Some rv.
Proof.
  intros Hlive. unfold SimpleCache.get, SimpleCache.set, SimpleCache.normalize_timeout.
  cbn [Z.ltb Z.compare]. rewrite lookup_insert_eq.
  destruct (Z.ltb_spec now' (now + 86400)); [| lia].
  now rewrite orb_true_r.
Qed.

Lemma cached_hit now path f rv (st : AppState B) :
  SimpleCache.get now (FlaskCaching.view_key path) (cache st) = Some rv ->
  FlaskCaching.cached B debug 86400 now path f st = (Ret rv, st).
Proof.
  intros Hget. unfold FlaskCaching.cached, on_cache. cbn.
  rewrite Hget. now rewrite state_eta.
Qed.

Lemma cached_miss now path f rv (st st2 : AppState B) :
  SimpleCache.get now (FlaskCaching.view_key path) (cache st) = None ->
  f st = (Ret rv, st2) ->
  FlaskCaching.cached B debug 86400 now path f st
  = (Ret rv, @mkAppState B (users st2) (reviews st2)
               (SimpleCache.set evict now (FlaskCaching.view_key path) rv 86400 (cache st2))).
Proof.
  intros Hget Hf. unfold FlaskCaching.cached, on_cache. cbn.
  rewrite Hget, state_eta, Hf. reflexivity.
Qed.

Lemma detail_page_no_data omdb x (st : AppState B) :
  lookup_fails omdb x -> detail_page B omdb x st = MovieDetailsPage None [].
Proof.
  unfold detail_page, get_is.
  intros [-> | (d & -> & ->)]; reflexivity.
Qed.

(** The key that the invalidation computes does not depend on the
    identifier it is given. *)
Lemma make_cache_key_of_invalidate address x :
  FlaskCaching.make_cache_key ["imdb_id"]
    [ArgFunction "movie_details" address; ArgStr x]
  = Ret (invalidated_key address).
Proof. reflexivity. Qed.

Lemma invalidate_deletes address x (st : AppState B) :
  invalidate B address x st
  = (Ret tt, @mkAppState B (users st) (reviews st)
               (SimpleCache.delete (invalidated_key address) (cache st))).
Proof. reflexivity. Qed.

(** A detail key and the invalidated key are equal only for the one
    identifier that spells the quoted function. *)
Lemma detail_key_inj x y : detail_key x = detail_key y -> x = y.
Proof.
  unfold detail_key, FlaskCaching.view_key. intros H. cbn in H.
  now simplify_eq.
Qed.

Lemma invalidate_keeps_detail_entry address x (st : AppState B) :
  x <> url_quote (py_str (ArgFunction "movie_details" address)) ->
  (cache (snd (invalidate B address x st)) : gmap string (Z * response)) !! detail_key x
  = (cache st : gmap string (Z * response)) !! detail_key x.
Proof.
  intros Hne. rewrite invalidate_deletes. cbn [snd cache].
  unfold SimpleCache.delete. apply lookup_delete_ne.
  intros Heq. apply Hne. symmetry. now apply detail_key_inj.
Qed.

End Facts.
End CacheFacts.

(** C7. The invalidation of an identifier that has no entry is not a
    no-op. A logged-in user has requested the detail page whose path
    spells the quoted function object, and the page is in the cache; the
    identifier tt0111161 has no entry. Invalidating tt0111161 raises
    nothing, and it removes the cached page of the other path: the state
    after the call is not the state before it. The key of the
    invalidation is computed from the function object and not from the
    identifier, which is the defect of C1. *)
Theorem invalidate_absent_entry_not_noop :
  let B := SimpleCache.backend drop_all in
  let other := url_quote (py_str (ArgFunction "movie_details" "7f3a5c0d1e50")) in
  let st := snd (movie_details B false 0 (Some alice) catalog_up other (fresh B ∅)) in
  (cache st : gmap string (Z * response)) !! detail_key "tt0111161" = None /\
  (cache st : gmap string (Z * response)) !! detail_key other
  = Some (86400, MovieDetailsPage None []) /\
  let '(o, st') := invalidate B "7f3a5c0d1e50" "tt0111161" st in
  o = Ret tt /\
  (cache st' : gmap string (Z * response)) !! detail_key other = None /\
  st' <> st.
Proof.
  cbv zeta.
  split; [vm_compute; reflexivity |].
  split; [vm_compute; reflexivity |].
  rewrite CacheFacts.invalidate_deletes.
  split; [reflexivity |].
  split; [vm_compute; reflexivity |].
  intros Heq.
  apply (f_equal (fun s : AppState (SimpleCache.backend drop_all) =>
                    (cache s : gmap string (Z * response))
                      !! invalidated_key "7f3a5c0d1e50")) in Heq.
  vm_compute in Heq. discriminate Heq.
Qed.

(** C2, as amended. When the lookup of an identifier fails or reports
    not-found on a cache miss, the detail view returns the 'no data' page
    and, as for every other page, stores it under the key of the
    identifier for 86400 seconds: until then a later request gets the
    stored 'no data' page back, whatever the catalog would answer. *)
Theorem failed_lookup_is_cached
    (evict : Z -> gmap string (Z * response) -> gmap string (Z * response))
    (debug : bool) (now : Z) (user : User) (omdb : string -> http_result)
    (x : string) (st : AppState (SimpleCache.backend evict))
    (Hfail : lookup_fails omdb x)
    (Hmiss : SimpleCache.get now (detail_key x) (cache st) = None) :
  let B := SimpleCache.backend evict in
  exists st' : AppState B,
    movie_details B debug now (Some user) omdb x st
      = (Ret (MovieDetailsPage None []), st') /\
    (cache st' : gmap string (Z * response)) !! detail_key x
      = Some (now + 86400, MovieDetailsPage None []) /\
    forall now' user' omdb',
      now' < now + 86400 ->
      movie_details B debug now' (Some user') omdb' x st'
        = (Ret (MovieDetailsPage None []), st').
Proof.
  intros B. subst B. unfold movie_details, login_required. fold (detail_key x).
  eexists. split; [| split].
  - rewrite (CacheFacts.cached_miss evict debug now _
               (movie_details_view _ omdb x) _ st st Hmiss eq_refl).
    rewrite CacheFacts.detail_page_no_data by exact Hfail. reflexivity.
  - cbn [cache]. unfold SimpleCache.set, SimpleCache.normalize_timeout.
    cbn [Z.ltb Z.compare]. fold (detail_key x). apply lookup_insert_eq.
  - intros now' user' omdb' Hlive.
    apply CacheFacts.cached_hit. cbn [cache].
    now apply CacheFacts.get_set.
Qed.

Lemma failed_lookup_is_cached_witness :
  let B := SimpleCache.backend drop_all in
  exists st' : AppState B,
    movie_details B true 0 (Some alice) catalog_down "tt0111161" (fresh (SimpleCache.backend drop_all) ∅)
      = (Ret (MovieDetailsPage None []), st') /\
    (cache st' : gmap string (Z * response)) !! detail_key "tt0111161"
      = Some (0 + 86400, MovieDetailsPage None []) /\
    forall now' user' omdb',
      now' < 0 + 86400 ->
      movie_details B true now' (Some user') omdb' "tt0111161" st'
        = (Ret (MovieDetailsPage None []), st').
Proof.
  apply (failed_lookup_is_cached drop_all true 0 alice catalog_down "tt0111161" (fresh (SimpleCache.backend drop_all) ∅)).
  - left. reflexivity.
  - reflexivity.
Defined.

(** C2, as stated, fails: with the catalog down, the first request of
    [tt0111161] stores the 'no data' page, and a request one hour later,
    the catalog being up again, is served that page without a lookup. *)
Lemma negative_result_counterexample :
  let B := SimpleCache.backend drop_all in
  let first := movie_details B true 0 (Some alice) catalog_down "tt0111161" (fresh (SimpleCache.backend drop_all) ∅) in
  (cache (snd first) : gmap string (Z * response)) !! detail_key "tt0111161"
    = Some (86400, MovieDetailsPage None []) /\
  fst (movie_details B true 3600 (Some alice) catalog_up "tt0111161" (snd first))
    = Ret (MovieDetailsPage None []) /\
  ~ claimed_negative_not_cached drop_all true 0 alice catalog_down "tt0111161" (fresh (SimpleCache.backend drop_all) ∅).
Proof.
  cbv zeta.
  assert (Hentry :
    (cache (snd (movie_details (SimpleCache.backend drop_all) true 0 (Some alice)
                   catalog_down "tt0111161" (fresh (SimpleCache.backend drop_all) ∅)))
       : gmap string (Z * response)) !! detail_key "tt0111161"
    = Some (86400, MovieDetailsPage None [])) by (vm_compute; reflexivity).
  split; [exact Hentry |]. split; [vm_compute; reflexivity |].
  unfold claimed_negative_not_cached. intros Hclaim.
  specialize (Hclaim (or_introl eq_refl) eq_refl).
  destruct (movie_details _ _ _ _ _ _ _) as [o st'] eqn:Hrun.
  destruct Hclaim as [_ Hnone].
  cbn [snd] in Hentry. rewrite Hentry in Hnone. discriminate.
Qed.

(* ----------------------------------------------------------------- *)
(** ** Submitting a review *)

Module PredictFacts.
Section Facts.
Context (B : CacheBackend) (model : Pipeline) (address : string).

(** The row that [predict] commits stays in the table whatever the rest
    of the handler does. *)
Lemma predict_commits (user : User) (form : gmap string string) (st : AppState B)
    text label conf cls :
  form !! "review_text" = Some text ->
  classify model text = Ret (label, conf, cls) ->
  exists o c,
    predict B model address (Some user) form st
    = (o, mkAppState (users st)
            (reviews st ++ [mkReview (next_id (review_id <$> reviews st))
                              text label conf (user_id_of user) (form !! "imdb_id")])
            c).
Proof.
  intros Htext Hcls.
  unfold predict, login_required, hbind, hlift. rewrite Htext, Hcls.
  unfold add_review, set_reviews. cbn [users reviews cache].
  destruct (form !! "imdb_id") as [x |]; [destruct (truthy (Some x)) |].
  - unfold invalidate, FlaskCaching.delete_memoized, hbind, hlift, on_cache.
    rewrite CacheFacts.make_cache_key_of_invalidate. cbn [users reviews cache].
    destruct (backend_delete B (invalidated_key address) (cache st)) as [[[] | e] c];
      [| do 2 eexists; reflexivity].
    destruct (get_is form "is_ajax" "true"); do 2 eexists; reflexivity.
  - unfold hret. destruct (get_is form "is_ajax" "true"); do 2 eexists; reflexivity.
  - unfold hret. destruct (get_is form "is_ajax" "true"); do 2 eexists; reflexivity.
Qed.

(** The classifier on a pipeline of two classes. *)
Lemma classify_two_classes text p0 p1 cls :
  predict_proba model [text] = [[p0; p1]] ->
  model_predict model [text] = [cls] ->
  classify model text
  = Ret (if cls =? 1 then "Positive" else "Negative", Fin (Qmax p0 p1), cls).
Proof.
  intros Hp Hc. unfold classify. now rewrite Hp, Hc.
Qed.

End Facts.
End PredictFacts.



(** On the configured cache the same submission is reported as a success. *)
Example predict_reports_success :
  fst (predict (SimpleCache.backend drop_all) cheerful "7f3a5c0d1e50" (Some alice)
         (<["is_ajax" := "true"]> wonderful_form) (fresh (SimpleCache.backend drop_all) ∅))
  = Ret (JsonResponse "success" "Positive" 1 "87.5").
Proof. vm_compute. reflexivity. Qed.

(** C6. For a pipeline that answers a text with one row of two class
    probabilities, each between 0 and 1, and with one predicted class, the
    review that [predict] stores has as confidence the larger of the two
    probabilities, which lies between 0 and 1, and as label 'Positive' if
    and only if the predicted class is 1; the label is 'Positive' or
    'Negative'. When the predicted class of the pipeline is the index of
    the larger probability, the label is 'Positive' exactly when class 1
    has the larger probability. *)
Theorem predict_stores_classifier_output
    (B : CacheBackend) (model : Pipeline) (address : string)
    (user : User) (form : gmap string string) (st : AppState B)
    (text : string) (p0 p1 : Q) (cls : Z)
    (Htext : form !! "review_text" = Some text)
    (Hproba : predict_proba model [text] = [[p0; p1]])
    (Hp0 : (0 <= p0 <= 1)%Q) (Hp1 : (0 <= p1 <= 1)%Q)
    (Hclass : model_predict model [text] = [cls]) :
  exists r conf,
    reviews (snd (predict B model address (Some user) form st)) = reviews st ++ [r] /\
    content r = text /\
    confidence r = Fin conf /\
    conf = Qmax p0 p1 /\
    (p0 <= conf)%Q /\ (p1 <= conf)%Q /\ (conf = p0 \/ conf = p1) /\
    (0 <= conf <= 1)%Q /\
    (sentiment r = "Positive" <-> cls = 1) /\
    (sentiment r = "Positive" \/ sentiment r = "Negative") /\
    ((cls = 1 <-> (p0 < p1)%Q) -> (sentiment r = "Positive" <-> (p0 < p1)%Q)).
Proof.
  pose proof (PredictFacts.classify_two_classes model text p0 p1 cls Hproba Hclass) as Hcls.
  destruct (PredictFacts.predict_commits B model address user form st _ _ _ _ Htext Hcls)
    as (o & c & ->).
  cbn [snd reviews].
  eexists. exists (Qmax p0 p1).
  split; [reflexivity |]. cbn [content confidence sentiment].
  split; [reflexivity |]. split; [reflexivity |]. split; [reflexivity |].
  split; [apply Q.le_max_l |]. split; [apply Q.le_max_r |].
  assert (Hcase : Qmax p0 p1 = p0 \/ Qmax p0 p1 = p1).
  { unfold Qmax, GenericMinMax.gmax. destruct (p0 ?= p1)%Q; auto. }
  split; [exact Hcase |].
  split; [destruct Hcase as [-> | ->]; assumption |].
  destruct (Z.eqb_spec cls 1) as [-> | Hne].
  - split; [tauto |]. split; [now left | tauto].
  - split; [split; [discriminate | tauto] |]. split; [now right |].
    intros Hargmax. split; [discriminate | tauto].
Qed.

Lemma predict_stores_classifier_output_witness :
  exists r conf,
    reviews (snd (predict DownCache cheerful "7f3a5c0d1e50" (Some alice)
                    wonderful_form (fresh DownCache tt))) = [] ++ [r] /\
    content r = "this movie was wonderful" /\
    confidence r = Fin conf /\
    conf = Qmax (1 # 8) (7 # 8) /\
    (1 # 8 <= conf)%Q /\ (7 # 8 <= conf)%Q /\ (conf = (1 # 8)%Q \/ conf = (7 # 8)%Q) /\
    (0 <= conf <= 1)%Q /\
    (sentiment r = "Positive" <-> 1 = 1) /\
    (sentiment r = "Positive" \/ sentiment r = "Negative") /\
    ((1 = 1 <-> (1 # 8 < 7 # 8)%Q) -> (sentiment r = "Positive" <-> (1 # 8 < 7 # 8)%Q)).
Proof.
  apply (predict_stores_classifier_output DownCache cheerful "7f3a5c0d1e50" alice
           wonderful_form (fresh DownCache tt) "this movie was wonderful" (1 # 8) (7 # 8) 1);
    try reflexivity; split; discriminate.
Defined.

(* ----------------------------------------------------------------- *)
(** ** Coherence of the cache with the reviews *)

(** With no entry in the cache, the detail view that follows a submission
    lists the new review. *)
Example detail_after_predict_without_entry :
  let B := SimpleCache.backend drop_all in
  let st1 := snd (predict B cheerful "7f3a5c0d1e50" (Some alice) wonderful_form (fresh B ∅)) in
  fst (movie_details B true 1 (Some alice) catalog_up "tt0111161" st1)
  = Ret (MovieDetailsPage (Some shawshank) [(wonderful_review, alice)]).
Proof. vm_compute. reflexivity. Qed.

(** C1 fails on the code. [cache.delete_memoized(movie_details, imdb_id)]
    does not delete the entry that [cached] stored for the identifier: the
    key it computes is built from the function object, not from the
    identifier. So an entry stored before a submission, or before a
    deletion, is still served after it.
    - Submission: the page of [tt0111161] is cached with no review; the
      review of [alice] is committed; the next request of the page is a
      hit on the entry, which lists no review.
    - Deletion: the page is cached with the review; the administrator
      deletes the review; the next request still lists it. *)
Theorem stale_detail_after_mutation :
  let B := SimpleCache.backend drop_all in
  (let st1 := snd (movie_details B true 0 (Some alice) catalog_up "tt0111161" (fresh B ∅)) in
   let st2 := snd (predict B cheerful "7f3a5c0d1e50" (Some alice) wonderful_form st1) in
   fst (predict B cheerful "7f3a5c0d1e50" (Some alice) wonderful_form st1)
     = Ret (Redirect "/app/movie/tt0111161") /\
   reviews_of_movie st2 "tt0111161" = [(wonderful_review, alice)] /\
   (cache st2 : gmap string (Z * response)) !! detail_key "tt0111161"
     = Some (86400, MovieDetailsPage (Some shawshank) []) /\
   fst (movie_details B true 1 (Some alice) catalog_up "tt0111161" st2)
     = Ret (MovieDetailsPage (Some shawshank) [])) /\
  (let st0 : AppState B := mkAppState [alice; root] [wonderful_review] ∅ in
   let st1 := snd (movie_details B true 0 (Some alice) catalog_up "tt0111161" st0) in
   let st2 := snd (delete_review B "7f3a5c0d1e50" (Some root) 1 st1) in
   fst (delete_review B "7f3a5c0d1e50" (Some root) 1 st1) = Ret (Redirect "/admin") /\
   reviews st2 = [] /\
   fst (movie_details B true 1 (Some alice) catalog_up "tt0111161" st2)
     = Ret (MovieDetailsPage (Some shawshank) [(wonderful_review, alice)])).
Proof.
  cbv zeta. repeat split; vm_compute; reflexivity.
Qed.

(** The same holds of every identifier but the one that spells the quoted
    function: a live entry survives the submission of a review. *)
Lemma predict_keeps_detail_entry
    (evict : Z -> gmap string (Z * response) -> gmap string (Z * response))
    (model : Pipeline) (address : string) (user : User)
    (form : gmap string string) (x : string)
    (st : AppState (SimpleCache.backend evict)) :
  x <> url_quote (py_str (ArgFunction "movie_details" address)) ->
  (cache (snd (predict (SimpleCache.backend evict) model address (Some user) form st))
     : gmap string (Z * response)) !! detail_key x
  = (cache st : gmap string (Z * response)) !! detail_key x.
Proof.
  intros Hne.
  unfold predict, login_required, hbind, hlift.
  destruct (form !! "review_text") as [text |]; [| reflexivity].
  destruct (classify model text) as [[[label conf] cls] | e]; [| reflexivity].
  unfold add_review, set_reviews. cbn [users reviews cache].
  assert (Hdel : forall c : gmap string (Z * response),
             SimpleCache.delete (invalidated_key address) c !! detail_key x
             = c !! detail_key x).
  { intros c. unfold SimpleCache.delete. apply lookup_delete_ne.
    intros Heq. apply Hne. symmetry. now apply CacheFacts.detail_key_inj. }
  destruct (form !! "imdb_id") as [y |]; [destruct (truthy (Some y)) |].
  - rewrite CacheFacts.invalidate_deletes. cbn [users reviews cache].
    destruct (get_is form "is_ajax" "true"); cbn; apply Hdel.
  - destruct (get_is form "is_ajax" "true"); reflexivity.
  - destruct (get_is form "is_ajax" "true"); reflexivity.
Qed.

(* ================================================================= *)
(** * Further properties of the handlers *)

(* ----------------------------------------------------------------- *)
(** ** Queries *)

Module QueryFacts.

Lemma insert_desc_perm {A} (key : A -> Z) x l : insert_desc key x l ≡ₚ x :: l.
Proof.
  induction l as [| y rest IH]; [reflexivity |].
  cbn [insert_desc]. destruct (key y <? key x); [reflexivity |].
  rewrite IH. apply Permutation_swap.
Qed.

Lemma order_by_desc_perm {A} (key : A -> Z) l : order_by_desc key l ≡ₚ l.
Proof.
  unfold order_by_desc. induction l as [| x rest IH]; [reflexivity |].
  cbn [foldr]. rewrite insert_desc_perm. now rewrite IH.
Qed.

Lemma insert_desc_sorted {A} (key : A -> Z) x l :
  Sorted (fun a b => key b <= key a) l ->
  Sorted (fun a b => key b <= key a) (insert_desc key x l).
Proof.
  induction l as [| y rest IH]; intros Hs; cbn [insert_desc].
  - repeat constructor.
  - destruct (Z.ltb_spec (key y) (key x)) as [Hlt | Hge].
    + constructor; [exact Hs |]. constructor. lia.
    + apply Sorted_inv in Hs. destruct Hs as [Hrest Hhd].
      constructor; [now apply IH |].
      destruct rest as [| z rest']; cbn [insert_desc].
      * constructor. exact Hge.
      * destruct (key z <? key x); constructor; [exact Hge |].
        now apply HdRel_inv in Hhd.
Qed.

Lemma order_by_desc_sorted {A} (key : A -> Z) l :
  Sorted (fun a b => key b <= key a) (order_by_desc key l).
Proof.
  unfold order_by_desc. induction l as [| x rest IH]; cbn [foldr].
  - constructor.
  - now apply insert_desc_sorted.
Qed.

Lemma elem_of_order_by_desc {A} (key : A -> Z) l x :
  x ∈ order_by_desc key l <-> x ∈ l.
Proof. now rewrite order_by_desc_perm. Qed.

Lemma elem_of_join_user us rs r u :
  (r, u) ∈ join_user us rs <-> r ∈ rs /\ find_user us (user_id r) = Some u.
Proof.
  unfold join_user. rewrite list_elem_of_omap. split.
  - intros (r' & Hin & Hf).
    destruct (find_user us (user_id r')) as [u' |] eqn:Hfind; [| discriminate].
    cbn in Hf. injection Hf as <- <-. now split.
  - intros [Hin Hf]. exists r. split; [exact Hin |]. now rewrite Hf.
Qed.

Lemma elem_of_filter_bool {A} (p : A -> bool) l x :
  x ∈ List.filter p l <-> x ∈ l /\ p x = true.
Proof. rewrite !list_elem_of_In. apply filter_In. Qed.

(** A new id is above every id of the table. *)
Lemma next_id_above ids i : i ∈ ids -> i < next_id ids.
Proof.
  unfold next_id. induction ids as [| j rest IH]; intros Hin.
  - now apply not_elem_of_nil in Hin.
  - cbn [foldr]. apply elem_of_cons in Hin. destruct Hin as [-> | Hin]; [lia |].
    specialize (IH Hin). lia.
Qed.

Lemma next_id_fresh ids : next_id ids ∉ ids.
Proof. intros Hin. apply next_id_above in Hin. lia. Qed.

End QueryFacts.

(* ----------------------------------------------------------------- *)
(** ** What the pages list *)

Module PageFacts.

Lemma has_imdb_id_true x r : has_imdb_id x r = true <-> imdb_id r = Some x.
Proof.
  unfold has_imdb_id. destruct (imdb_id r) as [y |].
  - rewrite String.eqb_eq. split; congruence.
  - split; discriminate.
Qed.

Lemma elem_of_reviews_of_movie {B} (st : AppState B) x r u :
  (r, u) ∈ reviews_of_movie st x
  <-> r ∈ reviews st /\ imdb_id r = Some x /\ find_user (users st) (user_id r) = Some u.
Proof.
  unfold reviews_of_movie.
  rewrite QueryFacts.elem_of_order_by_desc, QueryFacts.elem_of_join_user,
    QueryFacts.elem_of_filter_bool, has_imdb_id_true.
  tauto.
Qed.

(** The aggregation never raises. *)
Lemma profile_stats_returns rs :
  exists stats, profile_stats rs = Ret stats /\ total stats = Z.of_nat (length rs).
Proof.
  destruct rs as [| r rest].
  - eexists. split; reflexivity.
  - pose proof (AggregationFacts.profile_stats_nonempty (r :: rest) ltac:(discriminate)) as H.
    cbv zeta in H. eexists. split; [exact H | reflexivity].
Qed.

End PageFacts.

(** X1. On a cache miss, when the catalog answers the lookup of an
    identifier with a non-empty object that is not marked
    [Response: False], the detail view as routed returns the page that
    shows that object and lists exactly the reviews of the table that
    carry the identifier and whose author is in the table, each with its
    author, from the largest review id to the smallest. *)
Theorem movie_details_lists_reviews
    (evict : Z -> gmap string (Z * response) -> gmap string (Z * response))
    (debug : bool) (now : Z) (user : User)
    (omdb : string -> http_result) (x : string)
    (st : AppState (SimpleCache.backend evict)) (d : gmap string string)
    (Hmiss : SimpleCache.get now (detail_key x) (cache st) = None)
    (Hbody : omdb x = JsonBody d)
    (Hfound : get_is d "Response" "False" = false)
    (Hnonempty : d <> ∅) :
  exists rs,
    fst (movie_details (SimpleCache.backend evict) debug now (Some user) omdb x st)
    = Ret (MovieDetailsPage (Some d) rs) /\
    (forall r u,
       (r, u) ∈ rs <->
       r ∈ reviews st /\ imdb_id r = Some x /\
       find_user (users st) (user_id r) = Some u) /\
    Sorted (fun a b => review_id (fst b) <= review_id (fst a)) rs.
Proof.
  exists (reviews_of_movie st x). split; [| split].
  - unfold movie_details, login_required. fold (detail_key x).
    rewrite (CacheFacts.cached_miss evict debug now _
               (movie_details_view _ omdb x) _ st st Hmiss eq_refl).
    cbn [fst]. f_equal.
    unfold detail_page. rewrite Hbody, Hfound.
    destruct (Nat.eqb_spec (size d) 0) as [Hz | _]; [| reflexivity].
    now apply map_size_empty_iff in Hz.
  - intros r u. apply PageFacts.elem_of_reviews_of_movie.
  - apply (QueryFacts.order_by_desc_sorted (fun ru : Review * User => review_id (fst ru))).
Qed.

Lemma movie_details_lists_reviews_witness :
  let B := SimpleCache.backend drop_all in
  let st := reviewed B ∅ in
  exists rs,
    fst (movie_details B false 0 (Some alice) catalog_up "tt0111161" st)
    = Ret (MovieDetailsPage (Some shawshank) rs) /\
    (forall r u,
       (r, u) ∈ rs <->
       r ∈ reviews st /\ imdb_id r = Some "tt0111161" /\
       find_user (users st) (user_id r) = Some u) /\
    Sorted (fun a b => review_id (fst b) <= review_id (fst a)) rs.
Proof.
  apply (movie_details_lists_reviews drop_all false 0 alice catalog_up "tt0111161"
           (reviewed (SimpleCache.backend drop_all) ∅) shawshank).
  - reflexivity.
  - reflexivity.
  - vm_compute. reflexivity.
  - intros H. apply (f_equal (fun m => m !! "Title")) in H. vm_compute in H. discriminate H.
Defined.

(** X2. For a logged-in user, [profile] leaves the state as it is and shows
    exactly the reviews of the table whose [user_id] is the user's, from
    the largest id to the smallest, with the statistics of that list; the
    aggregation never raises. *)
Theorem profile_shows_own_reviews
    (B : CacheBackend) (user : User) (st : AppState B) :
  exists rs stats,
    profile B (Some user) st = (Ret (ProfilePage rs stats), st) /\
    (forall r, r ∈ rs <-> r ∈ reviews st /\ user_id r = user_id_of user) /\
    Sorted (fun a b => review_id b <= review_id a) rs /\
    profile_stats rs = Ret stats /\
    total stats = Z.of_nat (length rs).
Proof.
  destruct (PageFacts.profile_stats_returns (reviews_of_user st (user_id_of user)))
    as (stats & Hstats & Htotal).
  exists (reviews_of_user st (user_id_of user)), stats.
  split; [| split; [| split; [| split]]].
  - unfold profile, login_required. now rewrite Hstats.
  - intros r. unfold reviews_of_user.
    rewrite QueryFacts.elem_of_order_by_desc, QueryFacts.elem_of_filter_bool.
    now rewrite Z.eqb_eq.
  - apply QueryFacts.order_by_desc_sorted.
  - exact Hstats.
  - exact Htotal.
Qed.

(** X3. For an administrator, [admin] leaves the state as it is and lists
    exactly the reviews of the table whose author is in the table, each
    with its author, from the largest review id to the smallest. *)
Theorem admin_lists_all_reviews
    (B : CacheBackend) (user : User) (st : AppState B)
    (Hadmin : is_admin user = true) :
  exists rs,
    admin B (Some user) st = (Ret (AdminPage rs), st) /\
    (forall r u,
       (r, u) ∈ rs <->
       r ∈ reviews st /\ find_user (users st) (user_id r) = Some u) /\
    Sorted (fun a b => review_id (fst b) <= review_id (fst a)) rs.
Proof.
  eexists. split; [| split].
  - unfold admin, login_required_page, admin_required_page. rewrite Hadmin. reflexivity.
  - intros r u.
    now rewrite QueryFacts.elem_of_order_by_desc, QueryFacts.elem_of_join_user.
  - apply (QueryFacts.order_by_desc_sorted (fun ru : Review * User => review_id (fst ru))).
Qed.

Lemma admin_lists_all_reviews_witness :
  let st := reviewed DownCache tt in
  exists rs,
    admin DownCache (Some root) st = (Ret (AdminPage rs), st) /\
    (forall r u,
       (r, u) ∈ rs <->
       r ∈ reviews st /\ find_user (users st) (user_id r) = Some u) /\
    Sorted (fun a b => review_id (fst b) <= review_id (fst a)) rs.
Proof.
  apply (admin_lists_all_reviews DownCache root
           (reviewed DownCache tt)).
  reflexivity.
Defined.

(* ----------------------------------------------------------------- *)
(** ** More on rounding *)

Module RoundingFacts.
Import Binary64 Binary64Facts.

Lemma round_half_even_Qeq x y : (x == y)%Q -> round_half_even x = round_half_even y.
Proof.
  intros H. unfold round_half_even.
  rewrite (Qfloor_comp x y H).
  assert (Hc : ((x - inject_Z (Qfloor y)) ?= 1 # 2)%Q = ((y - inject_Z (Qfloor y)) ?= 1 # 2)%Q).
  { apply Qcompare_comp; [now rewrite H | reflexivity]. }
  now rewrite Hc.
Qed.

Lemma ilog2_Qeq x y : (x == y)%Q -> ilog2 x = ilog2 y.
Proof.
  intros H. unfold ilog2.
  assert (Hb : Qle_bool 1 x = Qle_bool 1 y) by now rewrite H.
  rewrite Hb. rewrite (Qfloor_comp x y H).
  assert (Hi : (/ x == / y)%Q) by now rewrite H.
  now rewrite (Qceiling_comp _ _ Hi).
Qed.

Lemma round_pos_Qeq x y : (x == y)%Q -> round_pos x = round_pos y.
Proof.
  intros H. unfold round_pos, ulp_exp. rewrite (ilog2_Qeq x y H).
  set (e := Z.max (ilog2 y - 52) (-1074)).
  assert (Hq : (x / pow2 e == y / pow2 e)%Q) by now rewrite H.
  rewrite (round_half_even_Qeq _ _ Hq). reflexivity.
Qed.

(** Equal rationals round to the same float. *)
Lemma RN_Qeq x y : (x == y)%Q -> RN x = RN y.
Proof.
  intros H. unfold RN.
  pose proof (Qnum_sign x) as Hx. pose proof (Qnum_sign y) as Hy.
  destruct (Qnum x), (Qnum y); try reflexivity; try (exfalso; lra).
  - now apply round_pos_Qeq.
  - assert (Hn : (- x == - y)%Q) by now rewrite H.
    now rewrite (round_pos_Qeq _ _ Hn).
Qed.

(** Rounding does not cross an integer that is itself a float. *)
Lemma RN_le_int x c :
  (0 <= x)%Q -> (x <= inject_Z c)%Q -> 1 <= c <= 2 ^ 52 ->
  (RN x <= inject_Z c)%Q.
Proof.
  intros Hx0 Hxc [Hc1 Hc2].
  assert (Hc1q : (1 <= inject_Z c)%Q)
    by (change 1%Q with (inject_Z 1); now rewrite <- Zle_Qle).
  unfold RN. pose proof (Qnum_sign x) as Hs.
  destruct (Qnum x); [lra | | lra].
  unfold round_pos. rewrite Qred_correct.
  assert (He : ulp_exp x <= 0).
  { unfold ulp_exp. pose proof (ilog2_lower x Hs) as Hk.
    assert (Hle : (pow2 (ilog2 x) <= pow2 52)%Q).
    { rewrite (pow2_of_nonneg 52) by lia.
      rewrite Zle_Qle in Hc2. lra. }
    apply (Qpower_le_compat_l_inv 2) in Hle; [lia | reflexivity]. }
  set (e := ulp_exp x) in *.
  set (s := - e).
  replace e with (- s) by (unfold s; lia).
  assert (Hs0 : 0 <= s) by (unfold s; lia).
  pose proof (PaginationFacts.pow2_neg_inv s Hs0) as HN.
  assert (HN1 : 1 <= 2 ^ s) by (apply Z.lt_pred_le, Z.pow_pos_nonneg; lia).
  set (N := 2 ^ s) in *.
  assert (HN1q : (1 <= inject_Z N)%Q)
    by (change 1%Q with (inject_Z 1); now rewrite <- Zle_Qle).
  pose proof (pow2_pos (- s)) as HP.
  set (P := pow2 (- s)) in *.
  pose proof (round_half_even_spec (x / P)) as Hm.
  assert (Hy : (x / P == x * inject_Z N)%Q) by (field_simplify_eq; [nra | lra]).
  set (m := round_half_even (x / P)) in *.
  rewrite Hy in Hm. apply Qabs_Qle_condition in Hm. destruct Hm as [_ Hm2].
  assert (Hz : m <= c * N).
  { destruct (Z.le_gt_cases m (c * N)) as [| Hgt]; [assumption | exfalso].
    assert (Hge : c * N + 1 <= m) by lia.
    rewrite Zle_Qle, inject_Z_plus, inject_Z_mult in Hge.
    change (inject_Z 1) with 1%Q in Hge. nra. }
  rewrite Zle_Qle, inject_Z_mult in Hz.
  assert (Hscale : (inject_Z c == inject_Z c * inject_Z N * P)%Q).
  { rewrite <- Qmult_assoc, (Qmult_comm (inject_Z N)), HN. ring. }
  rewrite Hscale. apply Qmult_le_compat_r; [assumption | lra].
Qed.

End RoundingFacts.

(* ----------------------------------------------------------------- *)
(** ** More on the aggregation *)

Module StatsFacts.
Import Binary64 Binary64Facts.

Lemma positive_count_perm l1 l2 : l1 ≡ₚ l2 -> positive_count l1 = positive_count l2.
Proof.
  induction 1 as [| x l l' _ IH | x y l | l l' l'' _ IH1 _ IH2];
    cbn [positive_count]; lia.
Qed.

(** A percentage: between 0 and 100. *)
Lemma percent_range x :
  (0 <= x <= 1)%Q -> (0 <= RN (RN x * 100) <= 100)%Q.
Proof.
  intros [H0 H1].
  pose proof (RN_nonneg x H0) as Hf0.
  pose proof (RoundingFacts.RN_le_int x 1 H0 H1 ltac:(lia)) as Hf1.
  change (inject_Z 1) with 1%Q in Hf1.
  split.
  - apply RN_nonneg. lra.
  - apply (RoundingFacts.RN_le_int (RN x * 100) 100); [lra | | lia].
    change (inject_Z 100) with 100%Q. lra.
Qed.

Lemma positive_count_all (b : bool) reviews :
  Forall (fun r => String.eqb (sentiment r) "Positive" = b) reviews ->
  positive_count reviews = if b then Z.of_nat (length reviews) else 0.
Proof.
  induction 1 as [| r rest Hr _ IH]; [now destruct b |].
  cbn [positive_count length]. rewrite Hr, IH. destruct b; lia.
Qed.

End StatsFacts.

(** X4. The statistics of [profile] do not depend on the order of the
    reviews: two lists that are permutations of each other give the same
    result. *)
Theorem profile_stats_permutation (l1 l2 : list Review) (Hperm : l1 ≡ₚ l2) :
  profile_stats l1 = profile_stats l2.
Proof.
  unfold profile_stats.
  now rewrite (StatsFacts.positive_count_perm l1 l2 Hperm), (Permutation_length Hperm).
Qed.

Lemma profile_stats_permutation_witness :
  profile_stats one_in_three = profile_stats (rev one_in_three).
Proof.
  apply (profile_stats_permutation one_in_three (rev one_in_three)).
  apply Permutation_rev.
Defined.

(** X5. For every list of reviews the aggregation returns, the two counts
    lie between 0 and the total, and both percentages are finite numbers
    between 0 and 100. *)
Theorem profile_stats_percent_range (reviews : list Review) :
  exists st pp np,
    profile_stats reviews = Ret st /\
    0 <= positive st <= total st /\
    0 <= negative st <= total st /\
    num_value (positive_percent st) = Some pp /\
    num_value (negative_percent st) = Some np /\
    (0 <= pp <= 100)%Q /\ (0 <= np <= 100)%Q.
Proof.
  pose proof (AggregationFacts.positive_count_bounds reviews) as Hp.
  destruct reviews as [| r rest].
  - do 3 eexists. split; [reflexivity |]. cbn.
    repeat split; try reflexivity; try lia; discriminate.
  - pose proof (AggregationFacts.profile_stats_nonempty (r :: rest) ltac:(discriminate)) as Hst.
    cbv zeta in Hst.
    set (t := Z.of_nat (length (r :: rest))) in *.
    set (p := positive_count (r :: rest)) in *.
    assert (Ht : 0 < t) by (unfold t; cbn; lia).
    do 3 eexists. split; [exact Hst |].
    cbn [total positive negative positive_percent negative_percent num_value].
    split; [lia |]. split; [lia |].
    split; [reflexivity |]. split; [reflexivity |].
    split; apply StatsFacts.percent_range; apply PyFacts.ratio_bounds; lia.
Qed.

(** X6. When every review of a non-empty list is 'Positive' the stored
    percentages are exactly 100 and 0, and when none is they are exactly 0
    and 100. *)
Theorem profile_stats_uniform (b : bool) (reviews : list Review)
    (Hne : reviews <> [])
    (Hall : Forall (fun r => String.eqb (sentiment r) "Positive" = b) reviews) :
  let n := Z.of_nat (length reviews) in
  profile_stats reviews
  = Ret (if b then mkStats n n 0 (PFloat (Fin 100)) (PFloat (Fin 0))
         else mkStats n 0 n (PFloat (Fin 0)) (PFloat (Fin 100))).
Proof.
  intros n.
  pose proof (AggregationFacts.profile_stats_nonempty reviews Hne) as Hst.
  cbv zeta in Hst. rewrite (StatsFacts.positive_count_all b reviews Hall) in Hst.
  fold n in Hst.
  assert (Hn : 0 < n) by (unfold n; destruct reviews; [congruence | cbn; lia]).
  assert (Hnq : ~ (inject_Z n == 0)%Q).
  { rewrite Zlt_Qlt in Hn. change (inject_Z 0) with 0%Q in Hn. lra. }
  assert (Hone : Binary64.RN (inject_Z n / inject_Z n) = 1%Q).
  { rewrite (RoundingFacts.RN_Qeq _ 1); [vm_compute; reflexivity | now field]. }
  assert (Hzero : forall z, z = 0 -> Binary64.RN (inject_Z z / inject_Z n) = 0%Q).
  { intros z ->. rewrite (RoundingFacts.RN_Qeq _ 0); [reflexivity | now field]. }
  assert (H100 : Binary64.RN (1 * 100) = 100%Q) by (vm_compute; reflexivity).
  assert (H0 : Binary64.RN (0 * 100) = 0%Q) by reflexivity.
  rewrite Hst. destruct b.
  - replace (n - n) with 0 by lia.
    now rewrite Hone, (Hzero 0 eq_refl), H100, H0.
  - replace (n - 0) with n by lia.
    now rewrite Hone, (Hzero 0 eq_refl), H100, H0.
Qed.

Lemma profile_stats_uniform_witness :
  profile_stats [wonderful_review]
  = Ret (mkStats 1 1 0 (PFloat (Fin 100)) (PFloat (Fin 0))).
Proof.
  apply (profile_stats_uniform true [wonderful_review]).
  - discriminate.
  - repeat constructor.
Defined.

(* ----------------------------------------------------------------- *)
(** ** More on [predict] *)

(** X7. When the form carries no [review_text], or the classifier raises
    on the text, [predict] raises and leaves the tables and the cache as
    they were: nothing is stored without a label. *)
Theorem predict_aborts_before_commit
    (B : CacheBackend) (model : Pipeline) (address : string)
    (user : User) (form : gmap string string) (st : AppState B)
    (Hfail : form !! "review_text" = None \/
             exists text e, form !! "review_text" = Some text /\
                            classify model text = Raise e) :
  exists e, predict B model address (Some user) form st = (Raise e, st).
Proof.
  unfold predict, login_required, hbind, hlift.
  destruct Hfail as [-> | (text & e & -> & ->)]; eexists; reflexivity.
Qed.

Lemma predict_aborts_before_commit_witness :
  exists e,
    predict DownCache cheerful "7f3a5c0d1e50" (Some alice) ∅ (fresh DownCache tt)
    = (Raise e, fresh DownCache tt).
Proof.
  apply (predict_aborts_before_commit DownCache cheerful "7f3a5c0d1e50" alice ∅
           (fresh DownCache tt)).
  left. reflexivity.
Defined.

(** X8. A submission without [imdb_id] commits the review and never calls
    the cache. With [is_ajax] = 'true' it answers with the JSON payload;
    otherwise the URL of the redirect cannot be built and the caller
    receives [BuildError], the review being already committed. *)
Theorem predict_without_item_identifier
    (B : CacheBackend) (model : Pipeline) (address : string)
    (user : User) (form : gmap string string) (st : AppState B)
    (text label : string) (conf : pyfloat) (cls : Z)
    (Htext : form !! "review_text" = Some text)
    (Hcls : classify model text = Ret (label, conf, cls))
    (Hnoid : form !! "imdb_id" = None) :
  predict B model address (Some user) form st
  = (if get_is form "is_ajax" "true"
     then Ret (JsonResponse "success" label cls (format_1f (float_mul conf (Fin 100))))
     else Raise BuildError,
     mkAppState (users st)
       (reviews st ++ [mkReview (next_id (review_id <$> reviews st))
                         text label conf (user_id_of user) None])
       (cache st)).
Proof.
  unfold predict, login_required, hbind, hlift. rewrite Htext, Hcls, Hnoid.
  unfold add_review, set_reviews, hret. cbn [users reviews cache].
  destruct (get_is form "is_ajax" "true"); reflexivity.
Qed.

Lemma predict_without_item_identifier_witness :
  predict DownCache cheerful "7f3a5c0d1e50" (Some alice)
    {[ "review_text" := "this movie was wonderful" ]} (fresh DownCache tt)
  = (Raise BuildError,
     @mkAppState DownCache [alice; root]
       [mkReview 1 "this movie was wonderful" "Positive" (Fin (7 # 8)) 1 None] tt).
Proof.
  pose proof (predict_without_item_identifier DownCache cheerful "7f3a5c0d1e50" alice
                {[ "review_text" := "this movie was wonderful" ]} (fresh DownCache tt)
                "this movie was wonderful" "Positive" (Fin (7 # 8)) 1
                eq_refl eq_refl eq_refl) as H.
  vm_compute in H. vm_compute. exact H.
Defined.

Module TableFacts.

Lemma NoDup_snoc_fresh (ids : list Z) : NoDup ids -> NoDup (ids ++ [next_id ids]).
Proof.
  intros H. apply NoDup_app. split; [exact H |]. split.
  - intros i Hi Hin. apply list_elem_of_singleton in Hin. subst i.
    now apply QueryFacts.next_id_fresh in Hi.
  - apply NoDup_singleton.
Qed.

Lemma NoDup_filter_ids (p : Review -> bool) (rs : list Review) :
  NoDup (review_id <$> rs) -> NoDup (review_id <$> List.filter p rs).
Proof.
  induction rs as [| r rest IH]; [intros; constructor |].
  cbn [List.filter]. rewrite fmap_cons, NoDup_cons. intros [Hnot Hrest].
  destruct (p r); [| now apply IH].
  rewrite fmap_cons, NoDup_cons. split; [| now apply IH].
  intros Hin. apply Hnot.
  apply list_elem_of_fmap in Hin. destruct Hin as (r' & Heq & Hr').
  apply list_elem_of_fmap. exists r'. split; [exact Heq |].
  apply QueryFacts.elem_of_filter_bool in Hr'. tauto.
Qed.

(** What [predict] does to the tables, whatever the request. *)
Lemma predict_tables (B : CacheBackend) model address current_user
    (form : gmap string string) (st : AppState B) :
  let st' := snd (predict B model address current_user form st) in
  users st' = users st /\
  (reviews st' = reviews st \/
   exists text label conf imdb uid,
     reviews st' = reviews st ++ [mkReview (next_id (review_id <$> reviews st))
                                    text label conf uid imdb]).
Proof.
  cbv zeta. destruct current_user as [user |]; [| split; [reflexivity | now left]].
  destruct (form !! "review_text") as [text |] eqn:Htext.
  - destruct (classify model text) as [[[label conf] cls] | e] eqn:Hcls.
    + destruct (PredictFacts.predict_commits B model address user form st
                  text label conf cls Htext Hcls) as (o & c & ->).
      cbn [snd users reviews]. split; [reflexivity |]. right. now do 5 eexists.
    + unfold predict, login_required, hbind, hlift. rewrite Htext, Hcls.
      split; [reflexivity | now left].
  - unfold predict, login_required, hbind, hlift. rewrite Htext.
    split; [reflexivity | now left].
Qed.

(** What [delete_review] does to the tables, whatever the request. *)
Lemma delete_review_tables (B : CacheBackend) address current_user id
    (st : AppState B) :
  let st' := snd (delete_review B address current_user id st) in
  users st' = users st /\
  (reviews st' = reviews st \/
   reviews st' = List.filter (fun r' => negb (review_id r' =? id)) (reviews st)).
Proof.
  cbv zeta. unfold delete_review, login_required, admin_required.
  destruct current_user as [user |]; [| split; [reflexivity | now left]].
  destruct (is_admin user); [| split; [reflexivity | now left]].
  unfold hbind, get_or_404.
  destruct (List.find (fun r => review_id r =? id) (reviews st)) as [r |] eqn:Hfind;
    [| split; [reflexivity | now left]].
  apply find_some in Hfind. destruct Hfind as [_ Hid]. apply Z.eqb_eq in Hid.
  assert (Hinv : forall h : handler (AppState B) unit,
             (forall s, users (snd (h s)) = users s /\ reviews (snd (h s)) = reviews s) ->
             let st' := snd (match h st with
                             | (Ret a, s') =>
                                 match delete_row r s' with
                                 | (Ret _, s'') => hret (Redirect "/admin") s''
                                 | (Raise e, s'') => (Raise e, s'')
                                 end
                             | (Raise e, s') => (Raise e, s')
                             end) in
             users st' = users st /\
             (reviews st' = reviews st \/
              reviews st' = List.filter (fun r' => negb (review_id r' =? id)) (reviews st))).
  { intros h Hh. cbv zeta. specialize (Hh st).
    destruct (h st) as [[[] | e] s']; cbn [snd] in *.
    - unfold delete_row, set_reviews, hret. cbn [snd users reviews].
      destruct Hh as [-> ->]. rewrite Hid. split; [reflexivity | now right].
    - destruct Hh as [-> ->]. split; [reflexivity | now left]. }
  destruct (imdb_id r) as [x |]; [destruct (truthy (Some x)) |].
  - apply Hinv. intros s. unfold invalidate, FlaskCaching.delete_memoized, hbind, hlift.
    rewrite CacheFacts.make_cache_key_of_invalidate. unfold on_cache.
    destruct (backend_delete B (invalidated_key address) (cache s)) as [o c].
    destruct o; split; reflexivity.
  - apply Hinv. intros s. split; reflexivity.
  - apply Hinv. intros s. split; reflexivity.
Qed.

End TableFacts.

(** X9. [predict] and [delete_review] keep the review ids of the table
    distinct and never touch the users: whatever the request, a submission
    leaves the reviews as they are or appends one review whose id is above
    every id of the table, and a deletion leaves them as they are or
    leaves exactly the rows of the other ids, in their order. *)
Theorem review_ids_stay_unique
    (B : CacheBackend) (model : Pipeline) (address : string)
    (current_user : option User) (form : gmap string string) (id : Z)
    (st : AppState B)
    (Huniq : NoDup (review_id <$> reviews st)) :
  let st1 := snd (predict B model address current_user form st) in
  let st2 := snd (delete_review B address current_user id st) in
  (NoDup (review_id <$> reviews st1) /\ users st1 = users st /\
   (reviews st1 = reviews st \/
    exists r, reviews st1 = reviews st ++ [r] /\
              forall r', r' ∈ reviews st -> review_id r' < review_id r)) /\
  (NoDup (review_id <$> reviews st2) /\ users st2 = users st /\
   (reviews st2 = reviews st \/
    reviews st2 = List.filter (fun r => negb (review_id r =? id)) (reviews st))).
Proof.
  cbv zeta. split.
  - destruct (TableFacts.predict_tables B model address current_user form st)
      as [Hu [Hr | (text & label & conf & imdb & uid & Hr)]]; rewrite Hr.
    + split; [exact Huniq |]. split; [exact Hu | now left].
    + split; [| split; [exact Hu |]].
      * rewrite fmap_app. cbn [fmap list_fmap review_id].
        now apply TableFacts.NoDup_snoc_fresh.
      * right. eexists. split; [reflexivity |]. intros r' Hin. cbn [review_id].
        apply QueryFacts.next_id_above. apply list_elem_of_fmap. now exists r'.
  - destruct (TableFacts.delete_review_tables B address current_user id st)
      as [Hu [Hr | Hr]]; rewrite Hr.
    + split; [exact Huniq |]. split; [exact Hu | now left].
    + split; [now apply TableFacts.NoDup_filter_ids |]. split; [exact Hu | now right].
Qed.

Lemma review_ids_stay_unique_witness :
  let B := SimpleCache.backend drop_all in
  let st := reviewed B ∅ in
  let st1 := snd (predict B cheerful "7f3a5c0d1e50" (Some root) wonderful_form st) in
  let st2 := snd (delete_review B "7f3a5c0d1e50" (Some root) 1 st) in
  (NoDup (review_id <$> reviews st1) /\ users st1 = users st /\
   (reviews st1 = reviews st \/
    exists r, reviews st1 = reviews st ++ [r] /\
              forall r', r' ∈ reviews st -> review_id r' < review_id r)) /\
  (NoDup (review_id <$> reviews st2) /\ users st2 = users st /\
   (reviews st2 = reviews st \/
    reviews st2 = List.filter (fun r => negb (review_id r =? 1)) (reviews st))).
Proof.
  assert (Huniq : NoDup (review_id <$> reviews (reviewed (SimpleCache.backend drop_all) ∅)))
    by (cbn; apply NoDup_singleton).
  exact (review_ids_stay_unique (SimpleCache.backend drop_all) cheerful "7f3a5c0d1e50"
           (Some root) wonderful_form 1 (reviewed (SimpleCache.backend drop_all) ∅) Huniq).
Defined.

(* ----------------------------------------------------------------- *)
(** ** More on [delete_review] *)

(** X10. Only an administrator deletes: [delete_review] answers an
    anonymous visitor with the redirect of Flask-Login to the login page
    and a user who is not an administrator with a redirect to [/app], and
    in both cases leaves the tables and the cache as they were, whatever
    the review id. *)
Theorem delete_review_needs_admin
    (B : CacheBackend) (address : string) (current_user : option User)
    (id : Z) (st : AppState B)
    (Hguard : match current_user with
              | Some u => is_admin u = false
              | None => True
              end) :
  delete_review B address current_user id st
  = (Ret (match current_user with
          | Some _ => Redirect "/app"
          | None => LoginRedirect
          end), st).
Proof.
  unfold delete_review, login_required, admin_required.
  destruct current_user as [u |]; [| reflexivity].
  now rewrite Hguard.
Qed.

Lemma delete_review_needs_admin_witness :
  let B := SimpleCache.backend drop_all in
  delete_review B "7f3a5c0d1e50" (Some alice) 1 (reviewed B ∅)
  = (Ret (Redirect "/app"), reviewed B ∅).
Proof.
  apply (delete_review_needs_admin (SimpleCache.backend drop_all) "7f3a5c0d1e50"
           (Some alice) 1 (reviewed (SimpleCache.backend drop_all) ∅)).
  reflexivity.
Defined.

Module DeleteFacts.

Lemma find_none_iff (id : Z) (rs : list Review) :
  List.find (fun r => review_id r =? id) rs = None
  <-> forall r, r ∈ rs -> review_id r <> id.
Proof.
  split.
  - intros Hnone r Hin Heq. apply list_elem_of_In in Hin.
    pose proof (find_none _ _ Hnone r Hin) as Hf. cbn in Hf. lia.
  - intros Hall. destruct (List.find _ rs) as [r |] eqn:Hfind; [| reflexivity].
    apply find_some in Hfind. destruct Hfind as [Hin Heq].
    apply list_elem_of_In in Hin. apply Z.eqb_eq in Heq. now apply Hall in Hin.
Qed.

Lemma find_unique (id : Z) (rs : list Review) (r : Review) :
  NoDup (review_id <$> rs) -> r ∈ rs -> review_id r = id ->
  List.find (fun r' => review_id r' =? id) rs = Some r.
Proof.
  intros Huniq Hin Hid. induction rs as [| r0 rest IH]; [now apply not_elem_of_nil in Hin |].
  rewrite fmap_cons, NoDup_cons in Huniq. destruct Huniq as [Hnot Hrest].
  cbn [List.find]. destruct (Z.eqb_spec (review_id r0) id) as [Heq | Hne].
  - apply elem_of_cons in Hin. destruct Hin as [-> | Hin]; [reflexivity |].
    exfalso. apply Hnot. apply list_elem_of_fmap. exists r. split; [congruence | exact Hin].
  - apply elem_of_cons in Hin. destruct Hin as [-> | Hin]; [congruence |].
    now apply IH.
Qed.

End DeleteFacts.

(** X11. For an administrator, the deletion of an id that no review of the
    table has raises [NotFound] and leaves the tables and the cache as they
    were. *)
Theorem delete_review_unknown_id
    (B : CacheBackend) (address : string) (user : User) (id : Z) (st : AppState B)
    (Hadmin : is_admin user = true)
    (Habsent : forall r, r ∈ reviews st -> review_id r <> id) :
  delete_review B address (Some user) id st = (Raise NotFound, st).
Proof.
  unfold delete_review, login_required, admin_required. rewrite Hadmin.
  unfold hbind, get_or_404.
  now rewrite (proj2 (DeleteFacts.find_none_iff id (reviews st)) Habsent).
Qed.

Lemma delete_review_unknown_id_witness :
  delete_review DownCache "7f3a5c0d1e50" (Some root) 7 (reviewed DownCache tt)
  = (Raise NotFound, reviewed DownCache tt).
Proof.
  apply (delete_review_unknown_id DownCache "7f3a5c0d1e50" root 7 (reviewed DownCache tt)).
  - reflexivity.
  - intros r Hin. cbn in Hin. apply list_elem_of_singleton in Hin. subst r.
    cbn. lia.
Defined.

(** X12. On the configured cache, an administrator who deletes the id of a
    review of the table is redirected to the list; afterwards the table
    holds exactly the reviews of the other ids, the users are untouched,
    and a second deletion of the same id raises [NotFound]. *)
Theorem delete_review_removes
    (evict : Z -> gmap string (Z * response) -> gmap string (Z * response))
    (address : string) (user : User) (id : Z)
    (st : AppState (SimpleCache.backend evict)) (r : Review)
    (Hadmin : is_admin user = true)
    (Hin : r ∈ reviews st) (Hid : review_id r = id) :
  let B := SimpleCache.backend evict in
  exists st' : AppState B,
    delete_review B address (Some user) id st = (Ret (Redirect "/admin"), st') /\
    users st' = users st /\
    (forall r', r' ∈ reviews st' <-> r' ∈ reviews st /\ review_id r' <> id) /\
    delete_review B address (Some user) id st' = (Raise NotFound, st').
Proof.
  intros B. subst B.
  assert (Hfind : exists r0, List.find (fun r' => review_id r' =? id) (reviews st) = Some r0
                             /\ review_id r0 = id).
  { destruct (List.find (fun r' => review_id r' =? id) (reviews st)) as [r0 |] eqn:Hf.
    - exists r0. split; [reflexivity |]. apply find_some in Hf. now apply Z.eqb_eq.
    - exfalso. now apply (proj1 (DeleteFacts.find_none_iff id (reviews st)) Hf r Hin). }
  destruct Hfind as (r0 & Hfind & Hid0).
  assert (Hmem : forall (c : gmap string (Z * response)) r',
            r' ∈ List.filter (fun r' => negb (review_id r' =? review_id r0)) (reviews st)
            <-> r' ∈ reviews st /\ review_id r' <> id).
  { intros _ r'. rewrite QueryFacts.elem_of_filter_bool, Hid0, negb_true_iff, Z.eqb_neq.
    reflexivity. }
  assert (Hrun : exists c,
    delete_review (SimpleCache.backend evict) address (Some user) id st
    = (Ret (Redirect "/admin"),
       @mkAppState (SimpleCache.backend evict) (users st)
         (List.filter (fun r' => negb (review_id r' =? review_id r0)) (reviews st)) c)).
  { unfold delete_review, login_required, admin_required. rewrite Hadmin.
    unfold hbind, get_or_404. rewrite Hfind.
    destruct (imdb_id r0) as [x |]; [destruct (truthy (Some x)) |].
    - rewrite CacheFacts.invalidate_deletes. eexists. reflexivity.
    - eexists. reflexivity.
    - eexists. reflexivity. }
  destruct Hrun as (c & Hrun).
  eexists. split; [exact Hrun |]. cbn [users reviews].
  split; [reflexivity |]. split; [apply (Hmem c) |].
  apply delete_review_unknown_id; [exact Hadmin |].
  cbn [reviews]. intros r' Hr'. now apply (Hmem c) in Hr'.
Qed.

Lemma delete_review_removes_witness :
  let B := SimpleCache.backend drop_all in
  exists st' : AppState B,
    delete_review B "7f3a5c0d1e50" (Some root) 1 (reviewed B ∅)
      = (Ret (Redirect "/admin"), st') /\
    users st' = users (reviewed B ∅) /\
    (forall r', r' ∈ reviews st' <-> r' ∈ reviews (reviewed B ∅) /\ review_id r' <> 1) /\
    delete_review B "7f3a5c0d1e50" (Some root) 1 st' = (Raise NotFound, st').
Proof.
  apply (delete_review_removes drop_all "7f3a5c0d1e50" root 1
           (reviewed (SimpleCache.backend drop_all) ∅) wonderful_review).
  - reflexivity.
  - cbn. apply list_elem_of_singleton. reflexivity.
  - reflexivity.
Defined.

(* ----------------------------------------------------------------- *)
(** ** More on [register] and [login] *)

Module AccountFacts.

Lemma existsb_taken_false (us : list User) n m :
  existsb (fun u => String.eqb (username u) n || String.eqb (email u) m) us = false ->
  (n ∉ (username <$> us)) /\ (m ∉ (email <$> us)).
Proof.
  intros Hfree.
  assert (Hall : forall u, u ∈ us -> username u <> n /\ email u <> m).
  { intros u Hu. destruct (String.eqb_spec (username u) n) as [Hn | Hn];
      destruct (String.eqb_spec (email u) m) as [Hm | Hm]; try tauto; exfalso;
      (assert (Ht : existsb (fun u => String.eqb (username u) n || String.eqb (email u) m) us = true);
       [apply existsb_exists; exists u; split; [now apply list_elem_of_In |];
        rewrite ?Hn, ?Hm, ?String.eqb_refl, ?orb_true_r; reflexivity
       | congruence]). }
  split; intros Hin; apply list_elem_of_fmap in Hin; destruct Hin as (u & Heq & Hu);
    destruct (Hall u Hu); congruence.
Qed.

Lemma existsb_taken_true (us : list User) n m :
  n ∈ (username <$> us) \/ m ∈ (email <$> us) ->
  existsb (fun u => String.eqb (username u) n || String.eqb (email u) m) us = true.
Proof.
  intros H. apply existsb_exists.
  destruct H as [H | H]; apply list_elem_of_fmap in H; destruct H as (u & -> & Hu);
    exists u; (split; [now apply list_elem_of_In |]);
    rewrite String.eqb_refl, ?orb_true_r; reflexivity.
Qed.

Lemma NoDup_snoc {A} (l : list A) x : NoDup l -> x ∉ l -> NoDup (l ++ [x]).
Proof.
  intros Hl Hx. apply NoDup_app. split; [exact Hl |]. split.
  - intros y Hy Hin. apply list_elem_of_singleton in Hin. now subst y.
  - apply NoDup_singleton.
Qed.

(** What [register] does to the state, whatever the request. *)
Lemma register_cases (B : CacheBackend) bcrypt_hash method current_user
    (form : gmap string string) (st : AppState B) :
  (exists o, register B bcrypt_hash method current_user form st = (o, st) /\
             o <> Ret (Redirect "/login"))
  \/
  (exists n m c p,
     current_user = None /\
     form !! "username" = Some n /\ form !! "email" = Some m /\
     form !! "password" = Some (String c p) /\
     existsb (fun u => String.eqb (username u) n || String.eqb (email u) m) (users st) = false /\
     register B bcrypt_hash method current_user form st
     = (Ret (Redirect "/login"),
        set_users st (users st ++
          [mkUser (next_id (user_id_of <$> users st)) n m (bcrypt_hash (String c p))
                  (String.eqb m "admin@admin.com")]))).
Proof.
  unfold register.
  destruct current_user; [left; eexists; split; [reflexivity | discriminate] |].
  destruct (String.eqb method "POST");
    [| left; eexists; split; [reflexivity | discriminate]].
  unfold hbind, hlift, hret, generate_password_hash.
  destruct (form !! "password") as [[| c p] |];
    try (left; eexists; split; [reflexivity | discriminate]).
  unfold add_user.
  destruct (form !! "username") as [n |];
    [| left; eexists; split; [reflexivity | discriminate]].
  destruct (form !! "email") as [m |];
    [| left; eexists; split; [reflexivity | discriminate]].
  destruct (existsb _ (users st)) eqn:Hfree;
    [left; eexists; split; [reflexivity | discriminate] |].
  right. exists n, m, c, p. repeat split; try reflexivity. exact Hfree.
Qed.

Lemma find_app_last (us : list User) (u : User) m :
  email u = m -> m ∉ (email <$> us) ->
  List.find (fun u' => String.eqb (email u') m) (us ++ [u]) = Some u.
Proof.
  intros Hu Hfree. induction us as [| u0 rest IH].
  - cbn. now rewrite Hu, String.eqb_refl.
  - cbn [app List.find]. rewrite fmap_cons, not_elem_of_cons in Hfree.
    destruct Hfree as [Hne Hrest].
    destruct (String.eqb_spec (email u0) m) as [Heq | _]; [congruence |].
    now apply IH.
Qed.

End AccountFacts.

(** X14. [register] keeps usernames, emails and user ids distinct and
    never touches the reviews or the cache; it either leaves the state as
    it was or appends one user. *)
Theorem register_keeps_users_unique
    (B : CacheBackend) (bcrypt_hash : string -> string)
    (method : string) (current_user : option User) (form : gmap string string)
    (st : AppState B)
    (Hnames : NoDup (username <$> users st))
    (Hmails : NoDup (email <$> users st))
    (Hids : NoDup (user_id_of <$> users st)) :
  let st' := snd (register B bcrypt_hash method current_user form st) in
  NoDup (username <$> users st') /\
  NoDup (email <$> users st') /\
  NoDup (user_id_of <$> users st') /\
  reviews st' = reviews st /\
  cache st' = cache st /\
  (st' = st \/ exists u, users st' = users st ++ [u]).
Proof.
  cbv zeta.
  destruct (AccountFacts.register_cases B bcrypt_hash method current_user form st)
    as [(o & -> & _) | (n & m & c & p & _ & _ & _ & _ & Hfree & ->)]; cbn [snd].
  - repeat split; try assumption. now left.
  - apply AccountFacts.existsb_taken_false in Hfree. destruct Hfree as [Hn Hm].
    unfold set_users. cbn [users reviews cache].
    rewrite !fmap_app. cbn [fmap list_fmap username email user_id_of].
    split; [now apply AccountFacts.NoDup_snoc |].
    split; [now apply AccountFacts.NoDup_snoc |].
    split; [now apply TableFacts.NoDup_snoc_fresh |].
    split; [reflexivity |]. split; [reflexivity |]. right. now eexists.
Qed.

Lemma register_keeps_users_unique_witness :
  let st := @mkAppState DownCache [alice] [] tt in
  let st' := snd (register DownCache toy_hash "POST" None admin_form st) in
  NoDup (username <$> users st') /\
  NoDup (email <$> users st') /\
  NoDup (user_id_of <$> users st') /\
  reviews st' = reviews st /\
  cache st' = cache st /\
  (st' = st \/ exists u, users st' = users st ++ [u]).
Proof.
  apply (register_keeps_users_unique DownCache toy_hash "POST" None admin_form
           (@mkAppState DownCache [alice] [] tt)); cbn; apply NoDup_singleton.
Defined.

(** X15. A registration under a username or an email that a user of the
    table already has, with a non-empty password, raises [IntegrityError]
    and creates no user. *)
Theorem register_rejects_taken
    (B : CacheBackend) (bcrypt_hash : string -> string)
    (form : gmap string string) (st : AppState B) (n m : string) (c : ascii) (p : string)
    (Hname : form !! "username" = Some n)
    (Hmail : form !! "email" = Some m)
    (Hpw : form !! "password" = Some (String c p))
    (Htaken : n ∈ (username <$> users st) \/ m ∈ (email <$> users st)) :
  register B bcrypt_hash "POST" None form st = (Raise IntegrityError, st).
Proof.
  unfold register. cbn [String.eqb Ascii.eqb Bool.eqb].
  rewrite Hname, Hmail, Hpw. unfold hbind, hlift, generate_password_hash, add_user.
  now rewrite (AccountFacts.existsb_taken_true (users st) n m Htaken).
Qed.

Lemma register_rejects_taken_witness :
  register DownCache toy_hash "POST" None admin_form (fresh DownCache tt)
  = (Raise IntegrityError, fresh DownCache tt).
Proof.
  apply (register_rejects_taken DownCache toy_hash admin_form (fresh DownCache tt)
           "carol" "admin@admin.com" "s" "3cret").
  - vm_compute. reflexivity.
  - vm_compute. reflexivity.
  - vm_compute. reflexivity.
  - right. cbn. apply elem_of_cons. right. apply elem_of_cons. now left.
Defined.

(** X16. [login] opens a session only after a password check that passed:
    when an anonymous request ends with a user in the session, the request
    was a POST, the user is the first of the table under the submitted
    email, the check of the submitted password against the stored hash
    returned true, and the state is as it was. *)
Theorem login_requires_password_check
    (B : CacheBackend) (check_password_hash : string -> option string -> outcome bool)
    (method : string) (form args : gmap string string)
    (st st' : AppState B) (p : page) (u : User)
    (Hrun : login B check_password_hash method None form args st = (Ret (p, Some u), st')) :
  st' = st /\
  method = "POST" /\
  first_by_email (users st) (form !! "email") = Some u /\
  u ∈ users st /\
  Some (email u) = form !! "email" /\
  check_password_hash (password u) (form !! "password") = Ret true.
Proof.
  unfold login in Hrun.
  destruct (String.eqb_spec method "POST") as [-> | _]; [| discriminate].
  destruct (first_by_email (users st) (form !! "email")) as [user |] eqn:Hfirst;
    [| discriminate].
  destruct (check_password_hash (password user) (form !! "password")) as [[|] | e] eqn:Hcheck;
    try discriminate.
  injection Hrun as _ <- <-.
  split; [reflexivity |]. split; [reflexivity |]. split; [reflexivity |].
  unfold first_by_email in Hfirst.
  destruct (form !! "email") as [m |]; [| discriminate].
  apply find_some in Hfirst. destruct Hfirst as [Hin Heq].
  apply String.eqb_eq in Heq. apply list_elem_of_In in Hin.
  split; [exact Hin |]. split; [now rewrite Heq | exact Hcheck].
Qed.

Lemma login_requires_password_check_witness :
  let st := fresh DownCache tt in
  let form : gmap string string :=
    {[ "email" := "alice@example.org"; "password" := "hash" ]} in
  st = st /\
  "POST" = "POST" /\
  first_by_email (users st) (form !! "email") = Some alice /\
  alice ∈ users st /\
  Some (email alice) = form !! "email" /\
  toy_check (password alice) (form !! "password") = Ret true.
Proof.
  cbv zeta.
  apply (login_requires_password_check DownCache toy_check
           "POST" {[ "email" := "alice@example.org"; "password" := "hash" ]} ∅
           (fresh DownCache tt) (fresh DownCache tt) (RedirectTo "/app") alice).
  vm_compute. reflexivity.
Defined.

(** X17. A user who has just registered can log in: when [register]
    succeeded with a password that the hash check accepts, a [login] with
    the same form opens the session of the new user, whose email is the
    submitted one, and redirects to the [next] argument when there is a
    non-empty one and to [/app] otherwise. *)
Theorem register_then_login
    (B : CacheBackend) (bcrypt_hash : string -> string)
    (check_password_hash : string -> option string -> outcome bool)
    (form args : gmap string string) (st st1 : AppState B) (pw : string)
    (Hreg : register B bcrypt_hash "POST" None form st = (Ret (Redirect "/login"), st1))
    (Hpw : form !! "password" = Some pw)
    (Hcheck : check_password_hash (bcrypt_hash pw) (Some pw) = Ret true) :
  exists u,
    login B check_password_hash "POST" None form args st1
    = (Ret (RedirectTo (match args !! "next" with
                        | Some (String c n) => String c n
                        | _ => "/app"
                        end), Some u), st1) /\
    u ∈ users st1 /\
    Some (email u) = form !! "email" /\
    password u = bcrypt_hash pw.
Proof.
  destruct (AccountFacts.register_cases B bcrypt_hash "POST" None form st)
    as [(o & Ho & Hne) | (n & m & c & p & _ & Hn & Hm & Hp & Hfree & Hrun)].
  - rewrite Ho in Hreg. injection Hreg as -> _. congruence.
  - rewrite Hrun in Hreg. injection Hreg as <-.
    rewrite Hp in Hpw. injection Hpw as <-.
    apply AccountFacts.existsb_taken_false in Hfree. destruct Hfree as [_ Hmfree].
    eexists. split; [| split; [| split]].
    + unfold login. cbn [String.eqb Ascii.eqb Bool.eqb]. rewrite Hm.
      unfold set_users. cbn [users first_by_email].
      rewrite (AccountFacts.find_app_last (users st)
                 (mkUser (next_id (user_id_of <$> users st)) n m
                    (bcrypt_hash (String c p)) (String.eqb m "admin@admin.com"))
                 m eq_refl Hmfree).
      cbn [password]. rewrite Hp, Hcheck.
      destruct (args !! "next") as [[| c' n'] |]; reflexivity.
    + unfold set_users. cbn [users]. apply elem_of_app. right.
      apply list_elem_of_singleton. reflexivity.
    + cbn [email]. now rewrite Hm.
    + reflexivity.
Qed.

Lemma register_then_login_witness :
  let st := @mkAppState DownCache [alice] [] tt in
  let st1 := snd (register DownCache toy_hash "POST" None admin_form st) in
  exists u,
    login DownCache toy_check "POST" None admin_form {[ "next" := "/app/profile" ]} st1
    = (Ret (RedirectTo "/app/profile", Some u), st1) /\
    u ∈ users st1 /\
    Some (email u) = admin_form !! "email" /\
    password u = toy_hash "s3cret".
Proof.
  cbv zeta.
  pose proof (register_then_login DownCache toy_hash toy_check
                admin_form {[ "next" := "/app/profile" ]}
                (@mkAppState DownCache [alice] [] tt)
                (snd (register DownCache toy_hash "POST" None admin_form
                        (@mkAppState DownCache [alice] [] tt)))
                "s3cret") as H.
  apply H.
  - vm_compute. reflexivity.
  - vm_compute. reflexivity.
  - vm_compute. reflexivity.
Defined.

(* ----------------------------------------------------------------- *)
(** ** The search view *)

Module SearchFacts.

Lemma total_pages_in_range n :
  0 <= n <= 10 * 2 ^ 50 ->
  total_pages n = Ret (Qceiling (inject_Z n / 10)).
Proof.
  intros Hrange. unfold total_pages.
  rewrite (PaginationFacts.truediv_ten _ Hrange). cbn [mbind outcome_bind bind math_ceil].
  f_equal.
  destruct (Z.eq_dec n 0) as [-> | Hnz]; [vm_compute; reflexivity |].
  destruct (Z.eq_dec n (10 * 2 ^ 50)) as [-> | Hne]; [vm_compute; reflexivity |].
  change (10%Q) with (inject_Z 10).
  apply PaginationFacts.RN_keeps_ceiling. lia.
Qed.

End SearchFacts.

(** X18. When the catalog cannot be reached, or answers a search with a
    [Response] other than 'True', [movie] shows no result and 0 pages for
    the term, and leaves the state as it was. *)
Theorem movie_search_failure
    (B : CacheBackend) (py_int : string -> outcome Z)
    (method : string) (user : User) (args form : gmap string string)
    (omdb_search : string -> Z -> search_result) (st : AppState B) (term : string)
    (Hterm : search_term_of method args form = Some term)
    (Hfail : omdb_search term (page_arg py_int args) = SearchRequestException \/
             exists body, omdb_search term (page_arg py_int args) = SearchJson body /\
                          body_response body <> Some "True") :
  movie B py_int method (Some user) args form omdb_search st
  = (Ret (MoviePage None (Some term) (page_arg py_int args) 0), st).
Proof.
  unfold movie, login_required_page. rewrite Hterm.
  destruct (truthy (Some term)); [| reflexivity].
  destruct Hfail as [-> | (body & -> & Hresp)]; [reflexivity |].
  destruct (option_is (body_response body) "True") eqn:His; [| reflexivity].
  exfalso. apply Hresp. unfold option_is in His.
  destruct (body_response body) as [v |]; [| discriminate].
  apply String.eqb_eq in His. now subst v.
Qed.

Lemma movie_search_failure_witness :
  movie DownCache (fun _ => Raise ValueError) "POST" (Some alice) ∅
    {[ "movie_title" := "heat" ]} (fun _ _ => SearchRequestException) (fresh DownCache tt)
  = (Ret (MoviePage None (Some "heat") 1 0), fresh DownCache tt).
Proof.
  pose proof (movie_search_failure DownCache (fun _ => Raise ValueError) "POST" alice ∅
                {[ "movie_title" := "heat" ]} (fun _ _ => SearchRequestException)
                (fresh DownCache tt) "heat") as H.
  apply H.
  - vm_compute. reflexivity.
  - left. reflexivity.
Defined.

(** X19. When the catalog answers the search of a non-empty term with
    [Response] 'True' and a total that [int] reads as [n], with
    0 <= n <= 10 * 2^50, [movie] shows the results of the answer and
    ceiling(n / 10) pages; a missing total counts as 0. *)
Theorem movie_page_count
    (B : CacheBackend) (py_int : string -> outcome Z)
    (method : string) (user : User) (args form : gmap string string)
    (omdb_search : string -> Z -> search_result) (st : AppState B)
    (c : ascii) (term : string) (body : search_body) (n : Z)
    (Hterm : search_term_of method args form = Some (String c term))
    (Hbody : omdb_search (String c term) (page_arg py_int args) = SearchJson body)
    (Hok : body_response body = Some "True")
    (Htotal : match body_total_results body with
              | Some s => py_int s = Ret n
              | None => n = 0
              end)
    (Hrange : 0 <= n <= 10 * 2 ^ 50) :
  movie B py_int method (Some user) args form omdb_search st
  = (Ret (MoviePage (body_search body) (Some (String c term)) (page_arg py_int args)
            (Qceiling (inject_Z n / 10))), st).
Proof.
  unfold movie, login_required_page. rewrite Hterm. cbn [truthy].
  rewrite Hbody, Hok. cbn [option_is]. rewrite String.eqb_refl.
  unfold hbind, hlift, hret.
  assert (Hn : match body_total_results body with
               | Some s => py_int s
               | None => Ret 0
               end = Ret n).
  { destruct (body_total_results body); [exact Htotal | now subst n]. }
  rewrite Hn. now rewrite (SearchFacts.total_pages_in_range n Hrange).
Qed.

Lemma movie_page_count_witness :
  movie DownCache (fun _ => Ret 25) "GET" (Some alice) {[ "s" := "heat" ]} ∅
    (fun _ _ => SearchJson (mkSearchBody (Some "True") (Some [shawshank]) (Some "25")))
    (fresh DownCache tt)
  = (Ret (MoviePage (Some [shawshank]) (Some "heat") 1 (Qceiling (inject_Z 25 / 10))),
     fresh DownCache tt).
Proof.
  pose proof (movie_page_count DownCache (fun _ => Ret 25) "GET" alice {[ "s" := "heat" ]} ∅
                (fun _ _ => SearchJson (mkSearchBody (Some "True") (Some [shawshank]) (Some "25")))
                (fresh DownCache tt) "h" "eat"
                (mkSearchBody (Some "True") (Some [shawshank]) (Some "25")) 25) as H.
  apply H.
  - vm_compute. reflexivity.
  - reflexivity.
  - reflexivity.
  - reflexivity.
  - lia.
Defined.

(* ----------------------------------------------------------------- *)
(** ** More on the detail view and its cache *)

(** X20. The staleness of a cached detail page is bounded by its time to
    live: when the entry of an identifier carries an expiry time other
    than 0 that the clock has reached, the view does not serve it; it
    renders the page from the catalog and the tables of the moment and
    stores that page for another 86400 seconds. *)
Theorem movie_details_recomputes_after_expiry
    (evict : Z -> gmap string (Z * response) -> gmap string (Z * response))
    (debug : bool) (now : Z) (user : User) (omdb : string -> http_result)
    (x : string) (st : AppState (SimpleCache.backend evict))
    (expires : Z) (old : response)
    (Hentry : (cache st : gmap string (Z * response)) !! detail_key x = Some (expires, old))
    (Hset : expires <> 0)
    (Hexpired : expires <= now) :
  let B := SimpleCache.backend evict in
  let '(o, st') := movie_details B debug now (Some user) omdb x st in
  o = Ret (detail_page B omdb x st) /\
  users st' = users st /\ reviews st' = reviews st /\
  (cache st' : gmap string (Z * response)) !! detail_key x
  = Some (now + 86400, detail_page B omdb x st).
Proof.
  intros B. subst B. unfold movie_details, login_required. fold (detail_key x).
  assert (Hmiss : SimpleCache.get now (detail_key x) (cache st) = None).
  { unfold SimpleCache.get. rewrite Hentry.
    destruct (Z.eqb_spec expires 0) as [? | _]; [contradiction |].
    destruct (Z.ltb_spec now expires); [lia | reflexivity]. }
  rewrite (CacheFacts.cached_miss evict debug now _
             (movie_details_view _ omdb x) _ st st Hmiss eq_refl).
  split; [reflexivity |]. cbn [users reviews cache].
  split; [reflexivity |]. split; [reflexivity |].
  unfold SimpleCache.set, SimpleCache.normalize_timeout. cbn [Z.ltb Z.compare].
  fold (detail_key x). apply lookup_insert_eq.
Qed.

Lemma movie_details_recomputes_after_expiry_witness :
  let B := SimpleCache.backend drop_all in
  let st : AppState B := served drop_all in
  let '(o, st') := movie_details B true 86400 (Some alice) catalog_up "tt0111161" st in
  o = Ret (detail_page B catalog_up "tt0111161" st) /\
  users st' = users st /\ reviews st' = reviews st /\
  (cache st' : gmap string (Z * response)) !! detail_key "tt0111161"
  = Some (86400 + 86400, detail_page B catalog_up "tt0111161" st).
Proof.
  apply (movie_details_recomputes_after_expiry drop_all true 86400 alice catalog_up
           "tt0111161"
           (served drop_all)
           86400 (MovieDetailsPage (Some shawshank) [])).
  - apply lookup_insert_eq.
  - lia.
  - lia.
Defined.

(** X22. The detail view never writes to the tables: whatever the backend,
    the request and the answer of the catalog, the users and the reviews
    after [movie_details] are the ones before. *)
Theorem movie_details_keeps_tables
    (B : CacheBackend) (debug : bool) (now : Z) (current_user : option User)
    (omdb : string -> http_result) (x : string) (st : AppState B) :
  let st' := snd (movie_details B debug now current_user omdb x st) in
  users st' = users st /\ reviews st' = reviews st.
Proof.
  cbv zeta. unfold movie_details, login_required.
  destruct current_user as [u |]; [| split; reflexivity].
  unfold FlaskCaching.cached, on_cache, movie_details_view.
  destruct (backend_get B now _ (cache st)) as [[[rv |] | e] c1]; cbn [snd users reviews].
  - split; reflexivity.
  - unfold hret. cbn [cache set_reviews users reviews].
    match goal with
    | |- context [backend_set B now ?k ?v ?t ?c] =>
        destruct (backend_set B now k v t c) as [[[] | e] c2]
    end; [| destruct debug]; split; reflexivity.
  - destruct debug; split; reflexivity.
Qed.

(** X24. On the configured cache, neither a submission nor a deletion
    removes or changes the cached detail page of an identifier, except
    for the one identifier that spells the quoted function object: the
    entry under the key of the identifier is the same before and after
    [predict] and [delete_review], whatever the form and the review id. *)
Theorem mutations_keep_detail_entry
    (evict : Z -> gmap string (Z * response) -> gmap string (Z * response))
    (model : Pipeline) (address : string) (current_user : option User)
    (form : gmap string string) (id : Z) (x : string)
    (st : AppState (SimpleCache.backend evict))
    (Hne : x <> url_quote (py_str (ArgFunction "movie_details" address))) :
  let B := SimpleCache.backend evict in
  (cache (snd (predict B model address current_user form st))
     : gmap string (Z * response)) !! detail_key x
  = (cache st : gmap string (Z * response)) !! detail_key x /\
  (cache (snd (delete_review B address current_user id st))
     : gmap string (Z * response)) !! detail_key x
  = (cache st : gmap string (Z * response)) !! detail_key x.
Proof.
  intros B. subst B.
  assert (Hdel : forall c : gmap string (Z * response),
             SimpleCache.delete (invalidated_key address) c !! detail_key x
             = c !! detail_key x).
  { intros c. unfold SimpleCache.delete. apply lookup_delete_ne.
    intros Heq. apply Hne. symmetry. now apply CacheFacts.detail_key_inj. }
  split.
  - destruct current_user as [user |]; [| reflexivity].
    now apply predict_keeps_detail_entry.
  - unfold delete_review, login_required, admin_required.
    destruct current_user as [user |]; [| reflexivity].
    destruct (is_admin user); [| reflexivity].
    unfold hbind, get_or_404.
    destruct (List.find _ (reviews st)) as [r |]; [| reflexivity].
    destruct (imdb_id r) as [y |]; [destruct (truthy (Some y)) |].
    + rewrite CacheFacts.invalidate_deletes. cbn. apply Hdel.
    + reflexivity.
    + reflexivity.
Qed.

Lemma mutations_keep_detail_entry_witness :
  let B := SimpleCache.backend drop_all in
  let st : AppState B := served drop_all in
  (cache (snd (predict B cheerful "7f3a5c0d1e50" (Some alice) wonderful_form st))
     : gmap string (Z * response)) !! detail_key "tt0111161"
  = (cache st : gmap string (Z * response)) !! detail_key "tt0111161" /\
  (cache (snd (delete_review B "7f3a5c0d1e50" (Some root) 1 st))
     : gmap string (Z * response)) !! detail_key "tt0111161"
  = (cache st : gmap string (Z * response)) !! detail_key "tt0111161".
Proof.
  apply (mutations_keep_detail_entry drop_all cheerful "7f3a5c0d1e50" (Some alice)
           wonderful_form 1 "tt0111161"
           (served drop_all)).
  vm_compute. discriminate.
Defined.

(* ----------------------------------------------------------------- *)
(** ** Repeating an invalidation or a request *)

(** X25. On the configured cache an invalidation never raises, a second
    one in a row changes nothing more than the first, and the first
    leaves the state as it was exactly when the cache has no entry under
    the key of the quoted function object, whatever the identifier. *)
Theorem invalidate_twice_is_once
    (evict : Z -> gmap string (Z * response) -> gmap string (Z * response))
    (address x : string) (st : AppState (SimpleCache.backend evict)) :
  let B := SimpleCache.backend evict in
  let once := invalidate B address x st in
  fst once = Ret tt /\
  invalidate B address x (snd once) = once /\
  (once = (Ret tt, st)
   <-> (cache st : gmap string (Z * response)) !! invalidated_key address = None).
Proof.
  intros B once. subst once B.
  rewrite !CacheFacts.invalidate_deletes. cbn [snd fst users reviews cache].
  split; [reflexivity |]. split.
  - unfold SimpleCache.delete. now rewrite delete_delete_eq.
  - split.
    + intros Heq.
      apply (f_equal (fun p : outcome unit * AppState (SimpleCache.backend evict) =>
                        (cache (snd p) : gmap string (Z * response))
                          !! invalidated_key address)) in Heq.
      cbn [snd cache] in Heq. rewrite <- Heq.
      unfold SimpleCache.delete. apply lookup_delete_eq.
    + intros Habsent. unfold SimpleCache.delete. rewrite delete_id by exact Habsent.
      now rewrite CacheFacts.state_eta.
Qed.

(** X26. Two requests of the detail view of one identifier by logged-in
    users return the same page when the second comes less than 86400
    seconds after the first and before the expiry of an entry that the
    first was served from, whatever the catalog answers and whoever asks
    the second time. *)
Theorem movie_details_twice_same_page
    (evict : Z -> gmap string (Z * response) -> gmap string (Z * response))
    (debug : bool) (x : string) (now1 now2 : Z)
    (user1 user2 : User) (omdb1 omdb2 : string -> http_result)
    (st : AppState (SimpleCache.backend evict))
    (Hlive : forall expires rv,
        (cache st : gmap string (Z * response)) !! detail_key x = Some (expires, rv) ->
        now1 < expires -> now2 < expires)
    (Httl : now2 < now1 + 86400) :
  let B := SimpleCache.backend evict in
  let first := movie_details B debug now1 (Some user1) omdb1 x st in
  fst (movie_details B debug now2 (Some user2) omdb2 x (snd first)) = fst first.
Proof.
  intros B first. subst first B.
  unfold movie_details, login_required. fold (detail_key x).
  destruct (SimpleCache.get now1 (detail_key x) (cache st)) as [rv |] eqn:Hget.
  - rewrite (CacheFacts.cached_hit evict debug now1 _ _ rv st Hget). cbn [fst snd].
    rewrite (CacheFacts.cached_hit evict debug now2 _ _ rv st); [reflexivity |].
    unfold SimpleCache.get in *. fold (detail_key x).
    destruct ((cache st : gmap string (Z * response)) !! detail_key x)
      as [[expires v] |] eqn:Hentry; [| discriminate].
    destruct (Z.eqb_spec expires 0) as [-> | Hnz]; [exact Hget |].
    cbn [orb] in *.
    destruct (Z.ltb_spec now1 expires) as [Hlt | ]; [| discriminate].
    specialize (Hlive expires v eq_refl Hlt).
    destruct (Z.ltb_spec now2 expires); [exact Hget | lia].
  - rewrite (CacheFacts.cached_miss evict debug now1 _
             (movie_details_view _ omdb1 x) _ st st Hget eq_refl).
    cbn [fst snd].
    rewrite (CacheFacts.cached_hit evict debug now2 _ _ (detail_page _ omdb1 x st));
      [reflexivity |].
    cbn [cache]. now apply CacheFacts.get_set.
Qed.

Lemma movie_details_twice_same_page_witness :
  let B := SimpleCache.backend drop_all in
  let first := movie_details B true 0 (Some alice) catalog_up "tt0111161" (reviewed B ∅) in
  fst (movie_details B true 3600 (Some root) catalog_down "tt0111161" (snd first))
  = fst first.
Proof.
  apply (movie_details_twice_same_page drop_all true "tt0111161" 0 3600 alice root
           catalog_up catalog_down (reviewed (SimpleCache.backend drop_all) ∅)).
  - intros expires rv H. vm_compute in H. discriminate H.
  - lia.
Defined.
